(** * Task tools and task routes of the Todo backend

    A shallow embedding of [backend/mcp/tools.py] (the five agent tools) and
    [backend/routes/tasks.py] (the HTTP task routes), with the properties
    their specification states about them.

    - The task table is a finite map from primary key to row.
    - A Python [str] is a [string]; its characters are the code points
      below 256, and [len] is [String.length].
    - [datetime.utcnow()] is the clock reading [now] handed to an operation.
    - A tool returns its envelope together with the table it leaves behind;
      a route runs in a small state-and-exception monad. *)

From Stdlib Require Import Ascii String DecimalString.
From stdpp Require Import gmap strings list fin_maps.

Local Open Scope Z_scope.
Local Open Scope string_scope.

(** ** Python strings *)

Module Str.

(** [str.isspace] on one character: the white space of Unicode among the
    code points below 256. *)
Definition isspace (c : ascii) : bool :=
  let n := nat_of_ascii c in
  ((9 <=? n) && (n <=? 13) || (28 <=? n) && (n <=? 32)
   || (n =? 133) || (n =? 160))%nat.

Fixpoint lstrip (s : string) : string :=
  match s with
  | EmptyString => EmptyString
  | String c s' => if isspace c then lstrip s' else s
  end.

Fixpoint rstrip (s : string) : string :=
  match s with
  | EmptyString => EmptyString
  | String c s' =>
      match rstrip s' with
      | EmptyString => if isspace c then EmptyString else String c EmptyString
      | r => String c r
      end
  end.

(** [s.strip()] *)
Definition strip (s : string) : string := rstrip (lstrip s).

(** [len(s)] *)
Definition len (s : string) : nat := String.length s.

(** Truth value of a string: [not s] holds of the empty string only. *)
Definition truthy (s : string) : bool :=
  match s with EmptyString => false | _ => true end.

(** [str(n)] for an [int], as an f-string renders it. *)
Definition of_int (n : Z) : string := NilZero.string_of_int (Z.to_int n).

(** [str(n)] for a count. *)
Definition of_nat (n : nat) : string := NilZero.string_of_uint (Nat.to_uint n).

(** ["x" * n] *)
Fixpoint repeat (c : ascii) (n : nat) : string :=
  match n with
  | O => EmptyString
  | S n' => String c (repeat c n')
  end.

End Str.

(** ** The task model *)

Module Models.

(** Modelled from the spec: the [Task] table class of [models.py], which
    is not among the sources. Its fields are those of the data model:
    [id] is the primary key the store assigns, [completed] defaults to
    false, and [created_at] and [updated_at] default to the creation
    time. A timestamp is a number of clock ticks. *)
Record Task := mkTask {
  id : Z;
  user_id : string;
  title : string;
  description : string;
  completed : bool;
  created_at : Z;
  updated_at : Z;
}.

(** Attribute assignments [task.title = v], [task.description = v],
    [task.completed = v], [task.updated_at = v]. *)
Definition set_title (v : string) (t : Task) : Task :=
  mkTask (id t) (user_id t) v (description t) (completed t)
         (created_at t) (updated_at t).
Definition set_description (v : string) (t : Task) : Task :=
  mkTask (id t) (user_id t) (title t) v (completed t)
         (created_at t) (updated_at t).
Definition set_completed (v : bool) (t : Task) : Task :=
  mkTask (id t) (user_id t) (title t) (description t) v
         (created_at t) (updated_at t).
Definition set_updated_at (v : Z) (t : Task) : Task :=
  mkTask (id t) (user_id t) (title t) (description t) (completed t)
         (created_at t) v.

(** [Task(user_id=..., title=..., description=...)] once the store has
    given it the key [k] at time [now]. *)
Definition new_task (k : Z) (u ti de : string) (now : Z) : Task :=
  mkTask k u ti de false now now.

End Models.
Export Models.

(** ** The storage session *)

Module Db.

(** Modelled from the spec: the database that [db.py] (not among the
    sources) opens. It is the table of tasks, keyed by [id], with the next
    value of the sequence the store assigns a new task's [id] from. *)
Record Store := mkStore {
  rows : gmap Z Task;
  next_id : Z;
}.

Definition empty : Store := mkStore ∅ 1.

(** [session.get(Task, task_id)] *)
Definition get (s : Store) (task_id : Z) : option Task := rows s !! task_id.

(** [session.add(task); session.commit(); session.refresh(task)] for a
    task that is new: the store assigns the key. The argument builds the
    row from its key. *)
Definition add_new (mk : Z -> Task) (s : Store) : Task * Store :=
  let t := mk (next_id s) in
  (t, mkStore (<[next_id s := t]> (rows s)) (next_id s + 1)).

(** [session.add(task); session.commit(); session.refresh(task)] for a
    task read from the table and modified: the row of its key is
    rewritten. *)
Definition save (t : Task) (s : Store) : Store :=
  mkStore (<[id t := t]> (rows s)) (next_id s).

(** [session.delete(task); session.commit()] *)
Definition remove (t : Task) (s : Store) : Store :=
  mkStore (delete (id t) (rows s)) (next_id s).

(** A [select(Task)] statement: the conjunction of its [where] clauses
    and its [limit], if any. *)
Record Select := mkSelect {
  sel_where : Task -> bool;
  sel_limit : option Z;
}.

(** [select(Task)] *)
Definition select_Task : Select := mkSelect (fun _ => true) None.

(** [statement.where(p)] *)
Definition where_ (p : Task -> bool) (q : Select) : Select :=
  mkSelect (fun t => sel_where q t && p t) (sel_limit q).

(** [statement.limit(n)]: the integer is handed to the statement as it is,
    negative or not. *)
Definition limit (n : Z) (q : Select) : Select :=
  mkSelect (sel_where q) (Some n).

(** The rows of the table, in the order a scan yields them. A statement
    has no [order_by]: the order is the store's, the same at each scan of
    the same table. *)
Definition scan (s : Store) : list Task := (map_to_list (rows s)).*2.

(** [session.exec(statement).all()]. A limit that is not negative keeps
    the first rows found, as many as the limit; a negative limit bounds
    nothing and every row found is returned. *)
Definition exec (q : Select) (s : Store) : list Task :=
  let found := List.filter (sel_where q) (scan s) in
  match sel_limit q with
  | None => found
  | Some n => if (n <? 0)%Z then found else take (Z.to_nat n) found
  end.

(** Every row is stored under its own key, below the sequence. *)
Definition wf (s : Store) : Prop :=
  forall k t, rows s !! k = Some t -> id t = k /\ k < next_id s.

End Db.

(** ** The agent tools ([backend/mcp/tools.py]) *)

Module Tools.

(** The [task] dictionary of an envelope. The tools do not all report the
    same keys: a key a tool leaves out is [None]. Timestamps are kept as
    they are read ([isoformat] renders them one to one). *)
Record TaskDict := mkTaskDict {
  d_id : Z;
  d_title : string;
  d_description : option string;
  d_completed : bool;
  d_created_at : option Z;
  d_updated_at : option Z;
}.

(** The dictionary a tool returns. *)
Inductive Envelope :=
| Failure (error : string)
| TaskResult (task : TaskDict) (message : string)
| ListResult (tasks : list TaskDict) (total pending completed : nat)
             (message : string)
| DeleteResult (deleted_task_id : Z) (message : string).

Definition success (e : Envelope) : bool :=
  match e with Failure _ => false | _ => true end.

Definition error (e : Envelope) : option string :=
  match e with Failure err => Some err | _ => None end.

Definition message (e : Envelope) : option string :=
  match e with
  | Failure _ => None
  | TaskResult _ m | ListResult _ _ _ _ m | DeleteResult _ m => Some m
  end.

Definition add_task (user_id title description : string) (now : Z)
    (s : Db.Store) : Envelope * Db.Store :=
  if negb (Str.truthy title) || negb (Str.truthy (Str.strip title)) then
    (Failure "Task title is required", s)
  else if (200 <? Str.len title)%nat then
    (Failure "Task title must be 200 characters or less", s)
  else if (1000 <? Str.len description)%nat then
    (Failure "Description must be 1000 characters or less", s)
  else
    let '(task, s') :=
      Db.add_new
        (fun k =>
           new_task k user_id (Str.strip title)
             (if Str.truthy description then Str.strip description else "")
             now) s in
    (TaskResult
       (mkTaskDict (id task) (Models.title task)
          (Some (Models.description task)) (completed task)
          (Some (created_at task)) None)
       ("Task '" +:+ Models.title task +:+ "' has been added successfully."),
     s').

(** The dictionary [list_tasks] builds of one task. *)
Definition list_entry (task : Task) : TaskDict :=
  mkTaskDict (id task) (title task) (Some (description task))
    (completed task) (Some (created_at task)) None.

Definition list_tasks (user_id : string) (include_completed : bool)
    (limit : Z) (s : Db.Store) : Envelope * Db.Store :=
  let statement :=
    Db.where_ (fun t => String.eqb (Models.user_id t) user_id)
      Db.select_Task in
  let statement :=
    if negb include_completed
    then Db.where_ (fun t => Bool.eqb (completed t) false) statement
    else statement in
  let statement := Db.limit limit statement in
  let tasks := Db.exec statement s in
  let task_list := List.map list_entry tasks in
  let pending_count :=
    length (List.filter (fun t => negb (d_completed t)) task_list) in
  let completed_count :=
    length (List.filter (fun t => d_completed t) task_list) in
  (ListResult task_list (length task_list) pending_count completed_count
     ("Found " +:+ Str.of_nat (length task_list) +:+ " task(s): "
      +:+ Str.of_nat pending_count +:+ " pending, "
      +:+ Str.of_nat completed_count +:+ " completed."),
   s).

Definition complete_task (user_id : string) (task_id : Z) (now : Z)
    (s : Db.Store) : Envelope * Db.Store :=
  match Db.get s task_id with
  | None =>
      (Failure ("Task with ID " +:+ Str.of_int task_id +:+ " not found"), s)
  | Some task =>
      if negb (String.eqb (Models.user_id task) user_id) then
        (Failure "Task not found", s)
      else if completed task then
        (TaskResult
           (mkTaskDict (id task) (title task) None (completed task)
              None None)
           ("Task '" +:+ title task +:+ "' was already completed."),
         s)
      else
        let task := set_completed true task in
        let task := set_updated_at now task in
        let s' := Db.save task s in
        (TaskResult
           (mkTaskDict (id task) (title task) None (completed task)
              None None)
           ("Task '" +:+ title task +:+ "' has been marked as completed."),
         s')
  end.

Definition delete_task (user_id : string) (task_id : Z) (s : Db.Store)
    : Envelope * Db.Store :=
  match Db.get s task_id with
  | None =>
      (Failure ("Task with ID " +:+ Str.of_int task_id +:+ " not found"), s)
  | Some task =>
      if negb (String.eqb (Models.user_id task) user_id) then
        (Failure "Task not found", s)
      else
        let task_title := title task in
        let s' := Db.remove task s in
        (DeleteResult task_id
           ("Task '" +:+ task_title +:+ "' has been deleted."),
         s')
  end.

Definition update_task (user_id : string) (task_id : Z)
    (title description : option string) (now : Z) (s : Db.Store)
    : Envelope * Db.Store :=
  if bool_decide (title = None) && bool_decide (description = None) then
    (Failure "At least one field (title or description) must be provided",
     s)
  else if match title with
          | Some ti => (200 <? Str.len ti)%nat
          | None => false
          end then
    (Failure "Task title must be 200 characters or less", s)
  else if match description with
          | Some de => (1000 <? Str.len de)%nat
          | None => false
          end then
    (Failure "Description must be 1000 characters or less", s)
  else
    match Db.get s task_id with
    | None =>
        (Failure ("Task with ID " +:+ Str.of_int task_id +:+ " not found"),
         s)
    | Some task =>
        if negb (String.eqb (Models.user_id task) user_id) then
          (Failure "Task not found", s)
        else
          let task :=
            match title with
            | Some ti => set_title (Str.strip ti) task
            | None => task
            end in
          let task :=
            match description with
            | Some de => set_description (Str.strip de) task
            | None => task
            end in
          let task := set_updated_at now task in
          let s' := Db.save task s in
          (TaskResult
             (mkTaskDict (id task) (Models.title task)
                (Some (Models.description task)) (completed task) None
                (Some (updated_at task)))
             ("Task '" +:+ Models.title task +:+ "' has been updated."),
           s')
    end.

(** A call of one of the five tools of the catalog ([get_all_tools]) with
    its keyword arguments: the required ones, and the optional ones, which
    may be absent. *)
Inductive Call :=
| call_add_task (title : string) (description : option string)
| call_list_tasks (include_completed : option bool) (limit : option Z)
| call_complete_task (task_id : Z)
| call_delete_task (task_id : Z)
| call_update_task (task_id : Z) (title description : option string).

(** The tool function applied to the caller and the keyword arguments; an
    absent argument takes the default of the function's signature. *)
Definition invoke (user_id : string) (c : Call) (now : Z) (s : Db.Store)
    : Envelope * Db.Store :=
  match c with
  | call_add_task title description =>
      add_task user_id title (default "" description) now s
  | call_list_tasks include_completed limit =>
      list_tasks user_id (default true include_completed)
        (default 50 limit) s
  | call_complete_task task_id => complete_task user_id task_id now s
  | call_delete_task task_id => delete_task user_id task_id s
  | call_update_task task_id title description =>
      update_task user_id task_id title description now s
  end.

End Tools.

(** ** Routes: state and [HTTPException] *)

Module Http.

Definition HTTP_200_OK : Z := 200.
Definition HTTP_201_CREATED : Z := 201.
Definition HTTP_204_NO_CONTENT : Z := 204.
Definition HTTP_403_FORBIDDEN : Z := 403.
Definition HTTP_404_NOT_FOUND : Z := 404.
Definition HTTP_422_UNPROCESSABLE : Z := 422.

(** What running a route function yields: its result, or the
    [HTTPException] it raised. *)
Inductive Outcome (A : Type) :=
| Returned (a : A)
| Raised (status_code : Z) (detail : string).
Arguments Returned {A} a.
Arguments Raised {A} status_code detail.

(** A route function body: it reads and writes the session's table. *)
Definition Route (A : Type) : Type := Db.Store -> Outcome A * Db.Store.

Definition ret {A} (a : A) : Route A := fun s => (Returned a, s).

Definition raise {A} (status_code : Z) (detail : string) : Route A :=
  fun s => (Raised status_code detail, s).

Definition bind {A B} (m : Route A) (k : A -> Route B) : Route B :=
  fun s =>
    match m s with
    | (Returned a, s') => k a s'
    | (Raised c d, s') => (Raised c d, s')
    end.

(** Reading through the session, and committing a change of the table. *)
Definition query {A} (f : Db.Store -> A) : Route A :=
  fun s => (Returned (f s), s).

Definition commit (f : Db.Store -> Db.Store) : Route unit :=
  fun s => (Returned tt, f s).

Definition commit_new (mk : Z -> Task) : Route Task :=
  fun s => let '(t, s') := Db.add_new mk s in (Returned t, s').

End Http.

#[global] Instance route_ret : MRet Http.Route := @Http.ret.
#[global] Instance route_bind : MBind Http.Route :=
  fun A B k m => Http.bind m k.

(** ** The task routes ([backend/routes/tasks.py]) *)

Module Routes.
Import Http.

(** The body of a request as it arrives: a JSON object whose members
    [title] and [description], when present, are strings. *)
Record Body := mkBody {
  body_title : option string;
  body_description : option string;
}.

(** Schema for creating a task. *)
Record TaskCreate := mkTaskCreate {
  tc_title : string;
  tc_description : string;
}.

(** Schema for updating a task. *)
Record TaskUpdate := mkTaskUpdate {
  tu_title : option string;
  tu_description : option string;
}.

(** [Field(min_length=lo, max_length=hi)] on a string. *)
Definition field_ok (lo hi : nat) (v : string) : bool :=
  ((lo <=? Str.len v) && (Str.len v <=? hi))%nat.

(** Validation of a body against [TaskCreate]: [title] is required and
    has 1 to 200 characters, [description] defaults to the empty string
    and has at most 1000. *)
Definition validate_TaskCreate (b : Body) : option TaskCreate :=
  match body_title b with
  | None => None
  | Some ti =>
      let de := default "" (body_description b) in
      if field_ok 1 200 ti && field_ok 0 1000 de
      then Some (mkTaskCreate ti de)
      else None
  end.

(** Validation of a body against [TaskUpdate]: both fields default to
    [None]; a title given has 1 to 200 characters, a description given at
    most 1000. *)
Definition validate_TaskUpdate (b : Body) : option TaskUpdate :=
  if from_option (field_ok 1 200) true (body_title b)
     && from_option (field_ok 0 1000) true (body_description b)
  then Some (mkTaskUpdate (body_title b) (body_description b))
  else None.

(** Modelled from the spec: the authenticated caller that
    [middleware/auth.py] (not among the sources) hands to a route; the
    routes read its [user_id] only. *)
Record CurrentUser := mkCurrentUser { auth_user_id : string }.

Definition verify_user_access (url_user_id token_user_id : string)
    : Route unit :=
  if negb (String.eqb url_user_id token_user_id) then
    raise HTTP_403_FORBIDDEN "Access denied: user_id mismatch"
  else ret tt.

Definition get_task_or_404 (user_id : string) (task_id : Z) : Route Task :=
  task ← query (fun s => Db.get s task_id);
  match task with
  | None => raise HTTP_404_NOT_FOUND "Task not found"
  | Some task =>
      if negb (String.eqb (Models.user_id task) user_id) then
        raise HTTP_404_NOT_FOUND "Task not found"
      else ret task
  end.

Definition list_tasks (user_id : string) (user : CurrentUser)
    : Route (list Task) :=
  verify_user_access user_id (auth_user_id user) ;;
  let statement :=
    Db.where_ (fun t => String.eqb (Models.user_id t) user_id)
      Db.select_Task in
  tasks ← query (Db.exec statement);
  ret tasks.

Definition create_task (user_id : string) (task_data : TaskCreate)
    (user : CurrentUser) (now : Z) : Route Task :=
  verify_user_access user_id (auth_user_id user) ;;
  commit_new
    (fun k =>
       new_task k user_id (tc_title task_data) (tc_description task_data)
         now).

Definition get_task (user_id : string) (task_id : Z) (user : CurrentUser)
    : Route Task :=
  verify_user_access user_id (auth_user_id user) ;;
  get_task_or_404 user_id task_id.

Definition update_task (user_id : string) (task_id : Z)
    (task_data : TaskUpdate) (user : CurrentUser) (now : Z) : Route Task :=
  verify_user_access user_id (auth_user_id user) ;;
  task ← get_task_or_404 user_id task_id;
  let task :=
    match tu_title task_data with
    | Some ti => set_title ti task
    | None => task
    end in
  let task :=
    match tu_description task_data with
    | Some de => set_description de task
    | None => task
    end in
  let task := set_updated_at now task in
  commit (Db.save task) ;;
  ret task.

Definition delete_task (user_id : string) (task_id : Z)
    (user : CurrentUser) : Route unit :=
  verify_user_access user_id (auth_user_id user) ;;
  task ← get_task_or_404 user_id task_id;
  commit (Db.remove task).

Definition toggle_complete (user_id : string) (task_id : Z)
    (user : CurrentUser) (now : Z) : Route Task :=
  verify_user_access user_id (auth_user_id user) ;;
  task ← get_task_or_404 user_id task_id;
  let task := set_completed (negb (completed task)) task in
  let task := set_updated_at now task in
  commit (Db.save task) ;;
  ret task.

(** *** The routes as the router serves them *)

(** A request to the router of prefix [/api/{user_id}/tasks]. *)
Inductive Request :=
| GET_tasks
| POST_tasks (body : Body)
| GET_task (task_id : Z)
| PUT_task (task_id : Z) (body : Body)
| DELETE_task (task_id : Z)
| PATCH_complete (task_id : Z).

Inductive Content :=
| TaskList (tasks : list Task)
| TaskResponse (task : Task)
| NoContent
| Detail (detail : string)
| ValidationDetail.

Record Response := mkResponse {
  status : Z;
  content : Content;
}.

(** The response to a route's outcome: the status of its decorator and
    the result rendered, or the status and detail of the exception. *)
Definition respond {A} (status_code : Z) (render : A -> Content)
    (r : Route A) (s : Db.Store) : Response * Db.Store :=
  match r s with
  | (Returned a, s') => (mkResponse status_code (render a), s')
  | (Raised c d, s') => (mkResponse c (Detail d), s')
  end.

(** A body that fails its schema is answered 422 before the route
    function runs. *)
Definition invalid (s : Db.Store) : Response * Db.Store :=
  (mkResponse HTTP_422_UNPROCESSABLE ValidationDetail, s).

Definition serve (user_id : string) (user : CurrentUser) (req : Request)
    (now : Z) (s : Db.Store) : Response * Db.Store :=
  match req with
  | GET_tasks => respond HTTP_200_OK TaskList (list_tasks user_id user) s
  | POST_tasks body =>
      match validate_TaskCreate body with
      | None => invalid s
      | Some task_data =>
          respond HTTP_201_CREATED TaskResponse
            (create_task user_id task_data user now) s
      end
  | GET_task task_id =>
      respond HTTP_200_OK TaskResponse (get_task user_id task_id user) s
  | PUT_task task_id body =>
      match validate_TaskUpdate body with
      | None => invalid s
      | Some task_data =>
          respond HTTP_200_OK TaskResponse
            (update_task user_id task_id task_data user now) s
      end
  | DELETE_task task_id =>
      respond HTTP_204_NO_CONTENT (fun _ => NoContent)
        (delete_task user_id task_id user) s
  | PATCH_complete task_id =>
      respond HTTP_200_OK TaskResponse
        (toggle_complete user_id task_id user now) s
  end.

End Routes.

(** * Properties *)

(** ** Strings *)

Section StringFacts.

Lemma truthy_false (s : string) : Str.truthy s = false <-> s = "".
Proof. destruct s; simpl; split; intros H; congruence. Qed.

Lemma truthy_true (s : string) : Str.truthy s = true <-> s <> "".
Proof. destruct s; simpl; split; intros H; congruence. Qed.

Lemma len_lstrip (s : string) : (Str.len (Str.lstrip s) <= Str.len s)%nat.
Proof.
  induction s as [|c s IH]; simpl; [lia|].
  destruct (Str.isspace c); simpl; unfold Str.len in *; simpl; lia.
Qed.

Lemma len_rstrip (s : string) : (Str.len (Str.rstrip s) <= Str.len s)%nat.
Proof.
  unfold Str.len. induction s as [|c s IH]; simpl; [lia|].
  destruct (Str.rstrip s) as [|c' r].
  - destruct (Str.isspace c); simpl; lia.
  - simpl in *. lia.
Qed.

Lemma len_strip (s : string) : (Str.len (Str.strip s) <= Str.len s)%nat.
Proof.
  unfold Str.strip. etransitivity; [apply len_rstrip | apply len_lstrip].
Qed.

(** An empty string stays empty when stripped: [not title] is subsumed by
    [not title.strip()]. *)
Lemma strip_empty : Str.strip "" = "".
Proof. reflexivity. Qed.

Lemma title_required_test (title : string) :
  negb (Str.truthy title) || negb (Str.truthy (Str.strip title)) = true
  <-> Str.strip title = "".
Proof.
  rewrite orb_true_iff, !negb_true_iff, !truthy_false. split.
  - intros [-> | H]; [apply strip_empty | exact H].
  - intros H. right. exact H.
Qed.

(** Appending to a common prefix is injective. *)
Lemma append_inv_head (p a b : string) : p +:+ a = p +:+ b -> a = b.
Proof. induction p as [|c p IH]; simpl; intros H; [exact H|]. injection H. exact IH. Qed.

End StringFacts.

(** ** The table *)

Section StoreFacts.

Lemma wf_empty : Db.wf Db.empty.
Proof. intros k t H. unfold Db.empty in H. simpl in H. by rewrite lookup_empty in H. Qed.

Lemma wf_id (s : Db.Store) (k : Z) (t : Task) :
  Db.wf s -> Db.get s k = Some t -> id t = k.
Proof. intros Hwf H. by destruct (Hwf k t H). Qed.

Lemma wf_add_new (mk : Z -> Task) (s : Db.Store) :
  (forall k, id (mk k) = k) -> Db.wf s -> Db.wf (snd (Db.add_new mk s)).
Proof.
  intros Hmk Hwf k t. unfold Db.add_new. simpl.
  rewrite lookup_insert. case_decide as Hk.
  - intros [= <-]. subst k. split; [apply Hmk | lia].
  - intros H. destruct (Hwf k t H). split; [done | lia].
Qed.

Lemma wf_save (t : Task) (s : Db.Store) :
  Db.wf s -> is_Some (Db.get s (id t)) -> Db.wf (Db.save t s).
Proof.
  intros Hwf [t0 H0] k t'. unfold Db.save. simpl.
  rewrite lookup_insert. case_decide as Hk.
  - intros [= <-]. subst k. split; [done|]. by destruct (Hwf _ _ H0).
  - apply Hwf.
Qed.

Lemma wf_remove (t : Task) (s : Db.Store) : Db.wf s -> Db.wf (Db.remove t s).
Proof.
  intros Hwf k t'. unfold Db.remove. simpl.
  rewrite lookup_delete. case_decide; [done | apply Hwf].
Qed.

(** Saving a row writes it under its key and leaves the other rows. *)
Lemma get_save (t : Task) (s : Db.Store) (k : Z) :
  Db.get (Db.save t s) k = if decide (id t = k) then Some t else Db.get s k.
Proof. unfold Db.get, Db.save. simpl. apply lookup_insert. Qed.

Lemma get_remove (t : Task) (s : Db.Store) (k : Z) :
  Db.get (Db.remove t s) k = if decide (id t = k) then None else Db.get s k.
Proof. unfold Db.get, Db.remove. simpl. apply lookup_delete. Qed.

(** The rows a scan yields are the rows of the table. *)
Lemma elem_of_scan (s : Db.Store) (t : Task) :
  t ∈ Db.scan s <-> exists k, Db.get s k = Some t.
Proof.
  unfold Db.scan, Db.get. rewrite list_elem_of_fmap. split.
  - intros [[k t'] [-> H]]. exists k. by apply elem_of_map_to_list.
  - intros [k H]. exists (k, t). split; [done|]. by apply elem_of_map_to_list.
Qed.

End StoreFacts.

(** ** A table to run the operations on *)

(** The table after alice has added one task at time 10: its key is 1. *)
Definition sample : Db.Store :=
  snd (Tools.add_task "alice" "Buy milk" "" 10 Db.empty).

Definition alice : Routes.CurrentUser := Routes.mkCurrentUser "alice".
Definition bob : Routes.CurrentUser := Routes.mkCurrentUser "bob".

Lemma sample_row :
  Db.get sample 1 = Some (mkTask 1 "alice" "Buy milk" "" false 10 10).
Proof. reflexivity. Qed.

Lemma sample_wf : Db.wf sample.
Proof.
  apply (wf_add_new _ Db.empty); [reflexivity | apply wf_empty].
Qed.

(** ** Ownership and absence in the tools *)

Section Ownership.

(** The error of a key that is absent names the key, the error of a
    task of another user does not: the two are never equal. *)
Lemma absent_error_is_not_foreign_error (task_id : Z) :
  "Task with ID " +:+ Str.of_int task_id +:+ " not found" <> "Task not found".
Proof. simpl. discriminate. Qed.

Lemma complete_task_absent user_id task_id now s :
  Db.get s task_id = None ->
  Tools.complete_task user_id task_id now s
  = (Tools.Failure ("Task with ID " +:+ Str.of_int task_id +:+ " not found"), s).
Proof. intros H. unfold Tools.complete_task. by rewrite H. Qed.

Lemma complete_task_foreign user_id task_id now s task :
  Db.get s task_id = Some task -> Models.user_id task <> user_id ->
  Tools.complete_task user_id task_id now s
  = (Tools.Failure "Task not found", s).
Proof.
  intros H Hu. unfold Tools.complete_task. rewrite H.
  apply String.eqb_neq in Hu. by rewrite Hu.
Qed.

Lemma delete_task_absent user_id task_id s :
  Db.get s task_id = None ->
  Tools.delete_task user_id task_id s
  = (Tools.Failure ("Task with ID " +:+ Str.of_int task_id +:+ " not found"), s).
Proof. intros H. unfold Tools.delete_task. by rewrite H. Qed.

Lemma delete_task_foreign user_id task_id s task :
  Db.get s task_id = Some task -> Models.user_id task <> user_id ->
  Tools.delete_task user_id task_id s = (Tools.Failure "Task not found", s).
Proof.
  intros H Hu. unfold Tools.delete_task. rewrite H.
  apply String.eqb_neq in Hu. by rewrite Hu.
Qed.

End Ownership.

(** C1. In the tools a task of another user is told apart from a task that
    does not exist. On the table where alice owns task 1 and no task 2
    exists, bob's [complete_task], [delete_task] and [update_task] fail on
    both keys, with the error "Task not found" on alice's task and the
    error "Task with ID 2 not found" on the absent one; the route helper
    [get_task_or_404] raises the same 404 on both. *)
Theorem tools_tell_foreign_task_from_absent_task :
  Tools.complete_task "bob" 1 20 sample
    = (Tools.Failure "Task not found", sample) /\
  Tools.complete_task "bob" 2 20 sample
    = (Tools.Failure "Task with ID 2 not found", sample) /\
  Tools.delete_task "bob" 1 sample
    = (Tools.Failure "Task not found", sample) /\
  Tools.delete_task "bob" 2 sample
    = (Tools.Failure "Task with ID 2 not found", sample) /\
  Tools.update_task "bob" 1 (Some "Mine now") None 20 sample
    = (Tools.Failure "Task not found", sample) /\
  Tools.update_task "bob" 2 (Some "Mine now") None 20 sample
    = (Tools.Failure "Task with ID 2 not found", sample) /\
  Routes.get_task_or_404 "bob" 1 sample
    = Routes.get_task_or_404 "bob" 2 sample.
Proof. repeat split; reflexivity. Qed.

(** ** Failure leaves the table *)

(** C6. Whatever the table, the caller, the tool and its arguments, a call
    that returns a failure envelope returns the table it was given: every
    validation and every lookup that can fail comes before the first
    write. *)
Theorem failed_tool_call_keeps_store
    (user_id : string) (c : Tools.Call) (now : Z) (s : Db.Store) :
  Tools.success (fst (Tools.invoke user_id c now s)) = false ->
  snd (Tools.invoke user_id c now s) = s.
Proof.
  destruct c as [ti de | ic li | k | k | k ti de]; simpl.
  - unfold Tools.add_task.
    repeat (case_match; simpl; try done).
  - done.
  - unfold Tools.complete_task.
    repeat (case_match; simpl; try done).
  - unfold Tools.delete_task.
    repeat (case_match; simpl; try done).
  - unfold Tools.update_task.
    repeat (case_match; simpl; try done).
Qed.

Lemma failed_tool_call_keeps_store_witness :
  snd (Tools.invoke "alice" (Tools.call_add_task "  " None) 20 sample) = sample.
Proof.
  apply (failed_tool_call_keeps_store "alice" (Tools.call_add_task "  " None)).
  reflexivity.
Defined.

(** ** Creating a task *)

Section Create.

Variables (user_id : string) (now : Z) (s : Db.Store).

(** The row a successful [add_task] stores. *)
Definition added_row (title description : string) : Task :=
  mkTask (Db.next_id s) user_id (Str.strip title) (Str.strip description)
    false now now.

Lemma add_task_fails_iff (title description : string) :
  Tools.success (fst (Tools.add_task user_id title description now s)) = false
  <-> Str.strip title = "" \/ (200 < Str.len title)%nat
      \/ (1000 < Str.len description)%nat.
Proof.
  unfold Tools.add_task.
  destruct (negb (Str.truthy title) || negb (Str.truthy (Str.strip title)))
    eqn:Hreq.
  { apply title_required_test in Hreq. simpl. tauto. }
  assert (Str.strip title <> "") as Hne.
  { intros H. apply title_required_test in H. congruence. }
  destruct (200 <? Str.len title)%nat eqn:Hti.
  { apply Nat.ltb_lt in Hti. simpl. tauto. }
  apply Nat.ltb_ge in Hti.
  destruct (1000 <? Str.len description)%nat eqn:Hde.
  { apply Nat.ltb_lt in Hde. simpl. tauto. }
  apply Nat.ltb_ge in Hde. simpl. split; [done|].
  intros [H | [H | H]]; [done | lia | lia].
Qed.


Lemma add_task_stores_stripped (title description : string) :
  Tools.success (fst (Tools.add_task user_id title description now s)) = true ->
  snd (Tools.add_task user_id title description now s)
  = Db.mkStore (<[Db.next_id s := added_row title description]> (Db.rows s))
      (Db.next_id s + 1).
Proof.
  unfold Tools.add_task, added_row, new_task.
  repeat (case_match; simpl; try done); intros _.
  match goal with H : Str.truthy description = false |- _ =>
    apply truthy_false in H; subst description end.
  done.
Qed.

(** The row a successful [POST] stores. *)
Definition posted_row (title description : string) : Task :=
  mkTask (Db.next_id s) user_id title description false now now.

(** What the schema [TaskCreate] refuses. *)
Definition refused_by_TaskCreate (body : Routes.Body) : Prop :=
  match Routes.body_title body with
  | None => True
  | Some ti =>
      Str.len ti = 0%nat \/ (200 < Str.len ti)%nat
      \/ (1000 < Str.len (default "" (Routes.body_description body)))%nat
  end.

Lemma validate_TaskCreate_None (body : Routes.Body) :
  Routes.validate_TaskCreate body = None <-> refused_by_TaskCreate body.
Proof.
  unfold Routes.validate_TaskCreate, refused_by_TaskCreate, Routes.field_ok.
  destruct (Routes.body_title body) as [ti|]; [|done].
  destruct (1 <=? Str.len ti)%nat eqn:H1;
    destruct (Str.len ti <=? 200)%nat eqn:H2;
    destruct (Str.len (default "" (Routes.body_description body)) <=? 1000)%nat
      eqn:H3; simpl;
    rewrite ?Nat.leb_le, ?Nat.leb_gt in *;
    (split; [try done; intros _; lia | try done; intros; lia]).
Qed.


Lemma post_tasks_422_iff (user : Routes.CurrentUser) (body : Routes.Body) :
  Routes.status (fst (Routes.serve user_id user (Routes.POST_tasks body) now s))
    = 422
  <-> refused_by_TaskCreate body.
Proof.
  rewrite <- validate_TaskCreate_None. simpl.
  destruct (Routes.validate_TaskCreate body) as [td|]; [|done].
  unfold Routes.respond, Routes.create_task, Routes.verify_user_access.
  unfold mbind, route_bind, Http.bind.
  destruct (negb (user_id =? Routes.auth_user_id user)%string); simpl;
    split; intros H; discriminate H.
Qed.

Lemma post_tasks_stores_as_given (title : string) (description : option string) :
  ~ refused_by_TaskCreate (Routes.mkBody (Some title) description) ->
  Routes.serve user_id (Routes.mkCurrentUser user_id)
    (Routes.POST_tasks (Routes.mkBody (Some title) description)) now s
  = (Routes.mkResponse 201
       (Routes.TaskResponse (posted_row title (default "" description))),
     Db.mkStore
       (<[Db.next_id s := posted_row title (default "" description)]>
          (Db.rows s))
       (Db.next_id s + 1)).
Proof.
  intros Hok. rewrite <- validate_TaskCreate_None in Hok. simpl.
  destruct (Routes.validate_TaskCreate (Routes.mkBody (Some title) description))
    as [td|] eqn:Hv; [|done].
  unfold Routes.validate_TaskCreate in Hv. simpl in Hv.
  case_match; [|done]. injection Hv as <-.
  unfold Routes.respond, Routes.create_task, Routes.verify_user_access.
  unfold mbind, route_bind, Http.bind.
  rewrite String.eqb_refl. simpl. done.
Qed.

End Create.



(** The HTTP create endpoint, unlike [add_task], lets a title of one space
    through: it answers 201 and stores the title as it came. *)
Lemma post_accepts_blank_title :
  Tools.add_task "alice" " " "" 20 sample
    = (Tools.Failure "Task title is required", sample) /\
  fst (Routes.serve "alice" alice
         (Routes.POST_tasks (Routes.mkBody (Some " ") None)) 20 sample)
    = Routes.mkResponse 201
        (Routes.TaskResponse (mkTask 2 "alice" " " "" false 20 20)).
Proof. split; reflexivity. Qed.





(** ** Completing a task *)

Section Complete.

Variables (user_id : string) (task_id : Z) (s : Db.Store) (task : Task).
Hypothesis Hget : Db.get s task_id = Some task.
Hypothesis Hown : Models.user_id task = user_id.

(** What [complete_task] reports of a task. *)
Definition completed_entry (t : Task) : Tools.TaskDict :=
  Tools.mkTaskDict (id t) (title t) None true None None.

(** The task marked as completed at time [now]. *)
Definition marked (now : Z) (t : Task) : Task :=
  mkTask (id t) (Models.user_id t) (title t) (description t) true
    (created_at t) now.

Lemma complete_task_already (now : Z) :
  completed task = true ->
  Tools.complete_task user_id task_id now s
  = (Tools.TaskResult (completed_entry task)
       ("Task '" +:+ title task +:+ "' was already completed."), s).
Proof using Hget Hown.
  intros Hc. unfold Tools.complete_task. rewrite Hget, Hown, String.eqb_refl.
  simpl. by rewrite Hc.
Qed.

Lemma complete_task_pending (now : Z) :
  completed task = false ->
  Tools.complete_task user_id task_id now s
  = (Tools.TaskResult (completed_entry task)
       ("Task '" +:+ title task +:+ "' has been marked as completed."),
     Db.save (marked now task) s).
Proof using Hget Hown.
  intros Hc. unfold Tools.complete_task. rewrite Hget, Hown, String.eqb_refl.
  simpl. by rewrite Hc.
Qed.

(** The two messages differ, whatever the title. *)
Lemma complete_messages_differ (ti : string) :
  "Task '" +:+ ti +:+ "' was already completed."
  <> "Task '" +:+ ti +:+ "' has been marked as completed.".
Proof.
  intros H. apply append_inv_head in H. apply append_inv_head in H.
  discriminate H.
Qed.

End Complete.

(** C3. [complete_task] on a task of the caller that is already completed
    succeeds, reports the task as it is, leaves the table (so [updated_at]
    is not refreshed) and says "was already completed"; on a task not yet
    completed it stores [completed = true] with [updated_at] set to the
    time of the call and says "has been marked as completed". A second
    call, at any later time, meets the completed task: it succeeds with the
    first of the two messages and leaves the row the first call left, so
    its [updated_at] is the first call's. The two messages are never
    equal. *)
Theorem complete_task_idempotent
    (user_id : string) (task_id : Z) (now now' : Z) (s : Db.Store)
    (task : Task) :
  Db.wf s ->
  Db.get s task_id = Some task ->
  Models.user_id task = user_id ->
  let first := Tools.complete_task user_id task_id now s in
  let second := Tools.complete_task user_id task_id now' (snd first) in
  (completed task = true ->
   first = (Tools.TaskResult (completed_entry task)
              ("Task '" +:+ title task +:+ "' was already completed."), s)) /\
  (completed task = false ->
   first = (Tools.TaskResult (completed_entry task)
              ("Task '" +:+ title task +:+ "' has been marked as completed."),
            Db.save (marked now task) s) /\
   Db.get (snd first) task_id = Some (marked now task)) /\
  second = (Tools.TaskResult (completed_entry task)
              ("Task '" +:+ title task +:+ "' was already completed."),
            snd first) /\
  (exists row, Db.get (snd first) task_id = Some row /\
               completed row = true /\
               Db.get (snd second) task_id = Some row) /\
  "Task '" +:+ title task +:+ "' was already completed."
  <> "Task '" +:+ title task +:+ "' has been marked as completed.".
Proof.
  intros Hwf Hget Hown first second.
  pose proof (wf_id s task_id task Hwf Hget) as Hid.
  assert (completed task = false ->
          Db.get (Db.save (marked now task) s) task_id = Some (marked now task))
    as Hsaved.
  { intros _. rewrite get_save. simpl. by rewrite decide_True. }
  destruct (completed task) eqn:Hc.
  - assert (first = (Tools.TaskResult (completed_entry task)
              ("Task '" +:+ title task +:+ "' was already completed."), s))
      as Hfirst by (by apply complete_task_already).
    assert (second = first) as Hsecond.
    { subst second. rewrite Hfirst. simpl. by apply complete_task_already. }
    split; [done|]. split; [done|].
    split; [by rewrite Hsecond, Hfirst|].
    split; [|apply complete_messages_differ].
    exists task. by rewrite Hsecond, Hfirst.
  - assert (first = (Tools.TaskResult (completed_entry task)
              ("Task '" +:+ title task +:+ "' has been marked as completed."),
              Db.save (marked now task) s))
      as Hfirst by (by apply complete_task_pending).
    assert (second = (Tools.TaskResult (completed_entry task)
              ("Task '" +:+ title task +:+ "' was already completed."),
              snd first)) as Hsecond.
    { subst second. rewrite Hfirst. simpl.
      apply (complete_task_already user_id task_id _ (marked now task));
        [by apply Hsaved | done | done]. }
    split; [done|]. split; [intros _; rewrite Hfirst; by split; [|apply Hsaved]|].
    split; [done|].
    split; [|apply complete_messages_differ].
    exists (marked now task). rewrite Hsecond, Hfirst. simpl.
    by rewrite Hsaved.
Qed.

Lemma complete_task_idempotent_witness :
  Tools.complete_task "alice" 1 30
    (snd (Tools.complete_task "alice" 1 20 sample))
  = (Tools.TaskResult (Tools.mkTaskDict 1 "Buy milk" None true None None)
       "Task 'Buy milk' was already completed.",
     snd (Tools.complete_task "alice" 1 20 sample)).
Proof.
  destruct (complete_task_idempotent "alice" 1 20 30 sample
              (mkTask 1 "alice" "Buy milk" "" false 10 10)
              sample_wf sample_row eq_refl) as (_ & _ & H & _).
  exact H.
Defined.

(** ** The schema of an update *)

Section UpdateSchema.

(** What the schema [TaskUpdate] refuses. *)
Definition refused_by_TaskUpdate (body : Routes.Body) : Prop :=
  (exists ti, Routes.body_title body = Some ti /\
              (Str.len ti = 0%nat \/ (200 < Str.len ti)%nat)) \/
  (exists de, Routes.body_description body = Some de /\
              (1000 < Str.len de)%nat).

Lemma field_ok_false (lo hi : nat) (v : string) :
  Routes.field_ok lo hi v = false
  <-> (Str.len v < lo)%nat \/ (hi < Str.len v)%nat.
Proof. unfold Routes.field_ok. by rewrite andb_false_iff, !Nat.leb_gt. Qed.

Lemma from_option_false {A} (f : A -> bool) (o : option A) :
  from_option f true o = false <-> exists x, o = Some x /\ f x = false.
Proof.
  destruct o as [x|]; simpl; split.
  - intros H. by exists x.
  - by intros (y & [= <-] & H).
  - done.
  - by intros (y & [=] & _).
Qed.

Lemma validate_TaskUpdate_None (body : Routes.Body) :
  Routes.validate_TaskUpdate body = None <-> refused_by_TaskUpdate body.
Proof.
  unfold Routes.validate_TaskUpdate, refused_by_TaskUpdate.
  destruct (from_option (Routes.field_ok 1 200) true (Routes.body_title body)
            && from_option (Routes.field_ok 0 1000) true
                 (Routes.body_description body)) eqn:Hv.
  - split; [done|]. intros Href. exfalso.
    apply andb_true_iff in Hv as [Hti Hde].
    destruct Href as [(ti & Hb & Hlen) | (de & Hb & Hlen)];
      rewrite Hb in *; simpl in *.
    + apply not_false_iff_true in Hti. apply Hti, field_ok_false. lia.
    + apply not_false_iff_true in Hde. apply Hde, field_ok_false. lia.
  - split; [intros _|done].
    apply andb_false_iff in Hv as [Hv | Hv];
      apply from_option_false in Hv as (x & Hb & Hx);
      apply field_ok_false in Hx; [left | right]; exists x; split; [done | lia | done | lia].
Qed.

Lemma validate_TaskUpdate_Some (body : Routes.Body) :
  Routes.validate_TaskUpdate body <> None ->
  Routes.validate_TaskUpdate body
  = Some (Routes.mkTaskUpdate (Routes.body_title body)
            (Routes.body_description body)).
Proof.
  unfold Routes.validate_TaskUpdate. by case_match.
Qed.

End UpdateSchema.

(** ** Updating a task *)

Section Update.

Variables (user_id : string) (task_id : Z) (now : Z) (s : Db.Store)
          (task : Task).
Hypothesis Hget : Db.get s task_id = Some task.
Hypothesis Hown : Models.user_id task = user_id.

(** The task with a new title, a new description, or neither, and
    [updated_at] set to [now]: every other field is the task's. *)
Definition retitled (v : string) (t : Task) : Task :=
  mkTask (id t) (Models.user_id t) v (description t) (completed t)
    (created_at t) now.
Definition redescribed (v : string) (t : Task) : Task :=
  mkTask (id t) (Models.user_id t) (title t) v (completed t)
    (created_at t) now.
Definition touched (t : Task) : Task :=
  mkTask (id t) (Models.user_id t) (title t) (description t) (completed t)
    (created_at t) now.

Lemma update_task_no_field :
  Tools.update_task user_id task_id None None now s
  = (Tools.Failure
       "At least one field (title or description) must be provided", s).
Proof. reflexivity. Qed.

Lemma update_task_title_only (ti : string) :
  (Str.len ti <= 200)%nat ->
  Tools.update_task user_id task_id (Some ti) None now s
  = (Tools.TaskResult
       (Tools.mkTaskDict (id task) (Str.strip ti) (Some (description task))
          (completed task) None (Some now))
       ("Task '" +:+ Str.strip ti +:+ "' has been updated."),
     Db.save (retitled (Str.strip ti) task) s).
Proof using Hget Hown.
  intros Hlen. unfold Tools.update_task. simpl.
  rewrite (proj2 (Nat.ltb_ge _ _) Hlen), Hget, Hown, String.eqb_refl.
  reflexivity.
Qed.

Lemma update_task_description_only (de : string) :
  (Str.len de <= 1000)%nat ->
  Tools.update_task user_id task_id None (Some de) now s
  = (Tools.TaskResult
       (Tools.mkTaskDict (id task) (title task) (Some (Str.strip de))
          (completed task) None (Some now))
       ("Task '" +:+ title task +:+ "' has been updated."),
     Db.save (redescribed (Str.strip de) task) s).
Proof using Hget Hown.
  intros Hlen. unfold Tools.update_task. simpl.
  rewrite (proj2 (Nat.ltb_ge _ _) Hlen), Hget, Hown, String.eqb_refl.
  reflexivity.
Qed.

(** The route function on a task of the caller, for a body that passed
    the schema: each field given is stored as given. *)
Lemma route_update_task (task_data : Routes.TaskUpdate) :
  Routes.update_task user_id task_id task_data
    (Routes.mkCurrentUser user_id) now s
  = let row :=
      mkTask (id task) (Models.user_id task)
        (default (title task) (Routes.tu_title task_data))
        (default (description task) (Routes.tu_description task_data))
        (completed task) (created_at task) now in
    (Http.Returned row, Db.save row s).
Proof using Hget Hown.
  unfold Routes.update_task, Routes.verify_user_access,
    Routes.get_task_or_404.
  unfold mbind, route_bind, Http.bind, Http.query, Http.commit, Http.ret.
  assert ((Models.user_id task =? user_id)%string = true) as Heq
    by (rewrite Hown; apply String.eqb_refl).
  simpl. rewrite String.eqb_refl. simpl. rewrite Hget, Heq. simpl.
  destruct task_data as [[ti|] [de|]]; reflexivity.
Qed.

Lemma put_title_only (ti : string) :
  (1 <= Str.len ti <= 200)%nat ->
  Routes.serve user_id (Routes.mkCurrentUser user_id)
    (Routes.PUT_task task_id (Routes.mkBody (Some ti) None)) now s
  = (Routes.mkResponse 200 (Routes.TaskResponse (retitled ti task)),
     Db.save (retitled ti task) s).
Proof using Hget Hown.
  intros Hlen. unfold Routes.serve.
  rewrite validate_TaskUpdate_Some by (intros H%validate_TaskUpdate_None; destruct H as [(x & [= <-] & Hx) | (x & [=] & Hx)]; lia).
  unfold Routes.respond. by rewrite route_update_task.
Qed.

Lemma put_description_only (de : string) :
  (Str.len de <= 1000)%nat ->
  Routes.serve user_id (Routes.mkCurrentUser user_id)
    (Routes.PUT_task task_id (Routes.mkBody None (Some de))) now s
  = (Routes.mkResponse 200 (Routes.TaskResponse (redescribed de task)),
     Db.save (redescribed de task) s).
Proof using Hget Hown.
  intros Hlen. unfold Routes.serve.
  rewrite validate_TaskUpdate_Some
    by (intros H%validate_TaskUpdate_None; destruct H as [(x & [=] & Hx) | (x & [= <-] & Hx)]; lia).
  unfold Routes.respond. by rewrite route_update_task.
Qed.

Lemma put_no_field :
  Routes.serve user_id (Routes.mkCurrentUser user_id)
    (Routes.PUT_task task_id (Routes.mkBody None None)) now s
  = (Routes.mkResponse 200 (Routes.TaskResponse (touched task)),
     Db.save (touched task) s).
Proof using Hget Hown.
  simpl. unfold Routes.respond. by rewrite route_update_task.
Qed.

(** Saving a row that has the key of [task] rewrites the row of
    [task_id] and no other. *)
Lemma save_only_that_row (row : Task) (k : Z) :
  Db.wf s -> id row = id task ->
  Db.get (Db.save row s) k
  = if decide (k = task_id) then Some row else Db.get s k.
Proof using Hget.
  intros Hwf Hid. rewrite get_save, Hid, (wf_id s task_id task Hwf Hget).
  repeat case_decide; congruence.
Qed.

End Update.

(** C4. The HTTP PUT with neither field, on alice's task of the sample
    table, is not refused as the tool [update_task] refuses it: it answers
    200 and rewrites the row, whose [updated_at] goes from 10 to the time
    of the call. *)
Theorem put_without_fields_is_accepted :
  Tools.update_task "alice" 1 None None 50 sample
  = (Tools.Failure
       "At least one field (title or description) must be provided",
     sample) /\
  Db.get sample 1 = Some (mkTask 1 "alice" "Buy milk" "" false 10 10) /\
  Routes.status
    (fst (Routes.serve "alice" alice
            (Routes.PUT_task 1 (Routes.mkBody None None)) 50 sample)) = 200 /\
  Db.get
    (snd (Routes.serve "alice" alice
            (Routes.PUT_task 1 (Routes.mkBody None None)) 50 sample)) 1
  = Some (mkTask 1 "alice" "Buy milk" "" false 10 50).
Proof. repeat split; reflexivity. Qed.

(** X17. On a task of the caller: the tool [update_task] with neither
    field fails with its validation error and leaves the table; with the
    title alone (at most 200 characters) it stores the trimmed title, and
    with the description alone (at most 1000) the trimmed description; the
    HTTP PUT with the title alone (1 to 200 characters) or the description
    alone (at most 1000) stores the field as given. In every one of these
    updates the row written differs from the task in the field given and
    in [updated_at] only, and no other row of the table changes. *)
Theorem update_changes_only_the_field_given
    (user_id : string) (task_id now : Z) (s : Db.Store) (task : Task)
    (ti de : string) :
  Db.wf s ->
  Db.get s task_id = Some task ->
  Models.user_id task = user_id ->
  Tools.update_task user_id task_id None None now s
  = (Tools.Failure
       "At least one field (title or description) must be provided", s) /\
  ((Str.len ti <= 200)%nat ->
   Tools.update_task user_id task_id (Some ti) None now s
   = (Tools.TaskResult
        (Tools.mkTaskDict (id task) (Str.strip ti) (Some (description task))
           (completed task) None (Some now))
        ("Task '" +:+ Str.strip ti +:+ "' has been updated."),
      Db.save (retitled now (Str.strip ti) task) s)) /\
  ((Str.len de <= 1000)%nat ->
   Tools.update_task user_id task_id None (Some de) now s
   = (Tools.TaskResult
        (Tools.mkTaskDict (id task) (title task) (Some (Str.strip de))
           (completed task) None (Some now))
        ("Task '" +:+ title task +:+ "' has been updated."),
      Db.save (redescribed now (Str.strip de) task) s)) /\
  ((1 <= Str.len ti <= 200)%nat ->
   Routes.serve user_id (Routes.mkCurrentUser user_id)
     (Routes.PUT_task task_id (Routes.mkBody (Some ti) None)) now s
   = (Routes.mkResponse 200 (Routes.TaskResponse (retitled now ti task)),
      Db.save (retitled now ti task) s)) /\
  ((Str.len de <= 1000)%nat ->
   Routes.serve user_id (Routes.mkCurrentUser user_id)
     (Routes.PUT_task task_id (Routes.mkBody None (Some de))) now s
   = (Routes.mkResponse 200 (Routes.TaskResponse (redescribed now de task)),
      Db.save (redescribed now de task) s)) /\
  (forall row k, id row = id task ->
     Db.get (Db.save row s) k
     = if decide (k = task_id) then Some row else Db.get s k).
Proof.
  intros Hwf Hget Hown.
  split; [reflexivity|].
  split; [by apply update_task_title_only|].
  split; [by apply update_task_description_only|].
  split; [by apply put_title_only|].
  split; [by apply put_description_only|].
  intros row k Hid. by apply (save_only_that_row task_id s task).
Qed.

Lemma update_changes_only_the_field_given_witness :
  Tools.update_task "alice" 1 (Some " Buy oat milk ") None 20 sample
  = (Tools.TaskResult
       (Tools.mkTaskDict 1 "Buy oat milk" (Some "") false None (Some 20))
       "Task 'Buy oat milk' has been updated.",
     Db.save (mkTask 1 "alice" "Buy oat milk" "" false 10 20) sample).
Proof.
  destruct (update_changes_only_the_field_given "alice" 1 20 sample
              (mkTask 1 "alice" "Buy milk" "" false 10 10)
              " Buy oat milk " "" sample_wf sample_row eq_refl)
    as (_ & H & _).
  apply H. vm_compute. lia.
Defined.

(** ** What [update_task] does refuse *)

Section UpdateBounds.

Variables (user_id : string) (task_id now : Z) (s : Db.Store).

(** A title still longer than 200 characters once trimmed is refused,
    since it is longer as given. *)
Lemma update_task_long_title (ti : string) (de : option string) :
  (200 < Str.len (Str.strip ti))%nat ->
  Tools.update_task user_id task_id (Some ti) de now s
  = (Tools.Failure "Task title must be 200 characters or less", s).
Proof.
  intros Hlen. pose proof (len_strip ti) as Hle.
  unfold Tools.update_task. simpl.
  by rewrite (proj2 (Nat.ltb_lt 200 (Str.len ti))) by lia.
Qed.

(** So is a description still longer than 1000 characters once trimmed. *)
Lemma update_task_long_description (ti : option string) (de : string) :
  (1000 < Str.len (Str.strip de))%nat ->
  Tools.success (fst (Tools.update_task user_id task_id ti (Some de) now s))
  = false /\
  snd (Tools.update_task user_id task_id ti (Some de) now s) = s.
Proof.
  intros Hlen. pose proof (len_strip de) as Hle.
  unfold Tools.update_task.
  rewrite andb_false_r.
  rewrite (proj2 (Nat.ltb_lt 1000 (Str.len de))) by lia.
  by case_match.
Qed.

End UpdateBounds.

(** C5. The tool [update_task] does not refuse a title that is empty once
    trimmed, as [add_task] does: on alice's task of the sample table a
    title of three spaces, and the empty title, are both accepted, and the
    row is stored with the empty title. *)
Theorem update_task_stores_empty_title :
  Tools.add_task "alice" "   " "" 20 sample
  = (Tools.Failure "Task title is required", sample) /\
  Tools.update_task "alice" 1 (Some "   ") None 20 sample
  = (Tools.TaskResult
       (Tools.mkTaskDict 1 "" (Some "") false None (Some 20))
       "Task '' has been updated.",
     Db.save (mkTask 1 "alice" "" "" false 10 20) sample) /\
  Tools.update_task "alice" 1 (Some "") None 20 sample
  = (Tools.TaskResult
       (Tools.mkTaskDict 1 "" (Some "") false None (Some 20))
       "Task '' has been updated.",
     Db.save (mkTask 1 "alice" "" "" false 10 20) sample) /\
  Db.get (snd (Tools.update_task "alice" 1 (Some "   ") None 20 sample)) 1
  = Some (mkTask 1 "alice" "" "" false 10 20).
Proof. repeat split; reflexivity. Qed.

(** ** The statuses of the routes *)

Section Statuses.

(** The body of a request is refused by the schema of its route. *)
Definition body_refused (req : Routes.Request) : Prop :=
  match req with
  | Routes.POST_tasks body => refused_by_TaskCreate body
  | Routes.PUT_task _ body => refused_by_TaskUpdate body
  | _ => False
  end.

(** The task a request names, if it names one. *)
Definition target (req : Routes.Request) : option Z :=
  match req with
  | Routes.GET_task k | Routes.PUT_task k _ | Routes.DELETE_task k
  | Routes.PATCH_complete k => Some k
  | Routes.GET_tasks | Routes.POST_tasks _ => None
  end.

(** The task a request names is absent from the table, or is a task of
    another user. *)
Definition task_missing (user_id : string) (s : Db.Store)
    (req : Routes.Request) : Prop :=
  match target req with
  | None => False
  | Some k =>
      match Db.get s k with
      | None => True
      | Some t => Models.user_id t <> user_id
      end
  end.

Variables (user_id : string) (user : Routes.CurrentUser) (s : Db.Store).

Lemma verify_user_access_same :
  user_id = Routes.auth_user_id user ->
  Routes.verify_user_access user_id (Routes.auth_user_id user) s
  = (Http.Returned tt, s).
Proof.
  intros <-. unfold Routes.verify_user_access. by rewrite String.eqb_refl.
Qed.

Lemma verify_user_access_other :
  user_id <> Routes.auth_user_id user ->
  Routes.verify_user_access user_id (Routes.auth_user_id user) s
  = (Http.Raised 403 "Access denied: user_id mismatch", s).
Proof.
  intros H%String.eqb_neq. unfold Routes.verify_user_access. by rewrite H.
Qed.

(** One lookup, one outcome for a task that is absent and a task of
    another user. *)
Lemma get_task_or_404_spec (task_id : Z) :
  Routes.get_task_or_404 user_id task_id s
  = match Db.get s task_id with
    | Some t =>
        if decide (Models.user_id t = user_id)
        then (Http.Returned t, s)
        else (Http.Raised 404 "Task not found", s)
    | None => (Http.Raised 404 "Task not found", s)
    end.
Proof.
  unfold Routes.get_task_or_404, mbind, route_bind, Http.bind, Http.query.
  destruct (Db.get s task_id) as [t|]; [|done].
  case_decide as Hu.
  - by rewrite Hu, String.eqb_refl.
  - apply String.eqb_neq in Hu. by rewrite Hu.
Qed.

End Statuses.

(** Runs a route function down to the tests it makes. *)
Ltac run_route :=
  unfold Routes.serve, Routes.respond, Routes.invalid, Routes.list_tasks,
    Routes.create_task, Routes.get_task, Routes.update_task,
    Routes.delete_task, Routes.toggle_complete;
  unfold mbind, route_bind, mret, route_ret, Http.bind, Http.ret,
    Http.query, Http.commit, Http.commit_new.

(** C7 (the claim fails). A request under alice's URL made by bob is
    answered 403, whatever the operation. *)
Lemma routes_answer_403 :
  Routes.status (fst (Routes.serve "alice" bob Routes.GET_tasks 20 sample))
    = 403 /\
  Routes.status (fst (Routes.serve "alice" bob (Routes.GET_task 1) 20 sample))
    = 403 /\
  Routes.status
    (fst (Routes.serve "alice" bob (Routes.DELETE_task 1) 20 sample)) = 403 /\
  Routes.status
    (fst (Routes.serve "alice" bob (Routes.PATCH_complete 1) 20 sample)) = 403.
Proof. repeat split; reflexivity. Qed.

Section ServeCases.

Variables (user_id : string) (user : Routes.CurrentUser)
          (req : Routes.Request) (now : Z) (s : Db.Store).

Definition success_status (z : Z) : Prop := z = 200 \/ z = 201 \/ z = 204.

Lemma serve_refused :
  body_refused req ->
  Routes.serve user_id user req now s
  = (Routes.mkResponse 422 Routes.ValidationDetail, s).
Proof.
  destruct req as [|body|k|k body|k|k]; simpl; try done.
  - intros H%validate_TaskCreate_None. by rewrite H.
  - intros H%validate_TaskUpdate_None. by rewrite H.
Qed.

Lemma serve_forbidden :
  ~ body_refused req -> user_id <> Routes.auth_user_id user ->
  Routes.serve user_id user req now s
  = (Routes.mkResponse 403 (Routes.Detail "Access denied: user_id mismatch"),
     s).
Proof.
  intros Hok Hu.
  pose proof (verify_user_access_other user_id user s Hu) as Hv.
  destruct req as [|body|k|k body|k|k]; simpl in Hok; run_route.
  - by rewrite Hv.
  - rewrite <- validate_TaskCreate_None in Hok.
    destruct (Routes.validate_TaskCreate body) as [td|]; [|done]. by rewrite Hv.
  - by rewrite Hv.
  - rewrite <- validate_TaskUpdate_None in Hok.
    destruct (Routes.validate_TaskUpdate body) as [td|]; [|done]. by rewrite Hv.
  - by rewrite Hv.
  - by rewrite Hv.
Qed.

Lemma serve_missing :
  ~ body_refused req -> user_id = Routes.auth_user_id user ->
  task_missing user_id s req ->
  Routes.serve user_id user req now s
  = (Routes.mkResponse 404 (Routes.Detail "Task not found"), s).
Proof.
  intros Hok Hu Hmiss.
  pose proof (verify_user_access_same user_id user s Hu) as Hv.
  unfold task_missing in Hmiss.
  destruct req as [|body|k|k body|k|k]; simpl in Hok, Hmiss; try done;
    run_route;
    try (rewrite <- validate_TaskUpdate_None in Hok;
         destruct (Routes.validate_TaskUpdate body) as [td|]; [|done]);
    rewrite Hv, get_task_or_404_spec;
    destruct (Db.get s k) as [t|]; try done;
    by rewrite decide_False.
Qed.

Lemma serve_found :
  ~ body_refused req -> user_id = Routes.auth_user_id user ->
  ~ task_missing user_id s req ->
  success_status (Routes.status (fst (Routes.serve user_id user req now s))).
Proof.
  intros Hok Hu Hfound.
  pose proof (verify_user_access_same user_id user s Hu) as Hv.
  unfold task_missing, success_status in *.
  destruct req as [|body|k|k body|k|k]; simpl in Hok, Hfound; run_route.
  - rewrite Hv. simpl. tauto.
  - rewrite <- validate_TaskCreate_None in Hok.
    destruct (Routes.validate_TaskCreate body) as [td|]; [|done].
    rewrite Hv. simpl. tauto.
  - rewrite Hv, get_task_or_404_spec.
    destruct (Db.get s k) as [t|]; [|done].
    case_decide; [simpl; tauto | done].
  - rewrite <- validate_TaskUpdate_None in Hok.
    destruct (Routes.validate_TaskUpdate body) as [td|]; [|done].
    rewrite Hv, get_task_or_404_spec.
    destruct (Db.get s k) as [t|]; [|done].
    case_decide; [simpl; tauto | done].
  - rewrite Hv, get_task_or_404_spec.
    destruct (Db.get s k) as [t|]; [|done].
    case_decide; [simpl; tauto | done].
  - rewrite Hv, get_task_or_404_spec.
    destruct (Db.get s k) as [t|]; [|done].
    case_decide; [simpl; tauto | done].
Qed.

Lemma body_refused_dec : body_refused req \/ ~ body_refused req.
Proof.
  destruct req as [|body|k|k body|k|k]; simpl; try tauto.
  - rewrite <- validate_TaskCreate_None.
    destruct (Routes.validate_TaskCreate body); [by right | by left].
  - rewrite <- validate_TaskUpdate_None.
    destruct (Routes.validate_TaskUpdate body); [by right | by left].
Qed.

Lemma task_missing_dec :
  task_missing user_id s req \/ ~ task_missing user_id s req.
Proof.
  unfold task_missing. destruct (target req) as [k|]; [|tauto].
  destruct (Db.get s k) as [t|]; [|tauto].
  destruct (decide (Models.user_id t = user_id)); tauto.
Qed.

End ServeCases.

(** C7 (as amended). A route answers 422 exactly when the body is refused
    by its schema; otherwise 403 exactly when the [user_id] of the URL is
    not the authenticated user's; otherwise 404 exactly when the task
    named is absent or belongs to another user, with the one detail "Task
    not found" in both cases; and otherwise 200, 201 or 204. A request
    that is not answered 200, 201 or 204 leaves the table. *)
Theorem routes_failure_statuses
    (user_id : string) (user : Routes.CurrentUser) (req : Routes.Request)
    (now : Z) (s : Db.Store) :
  let r := fst (Routes.serve user_id user req now s) in
  (Routes.status r = 422 <-> body_refused req) /\
  (Routes.status r = 403
   <-> ~ body_refused req /\ user_id <> Routes.auth_user_id user) /\
  (Routes.status r = 404
   <-> ~ body_refused req /\ user_id = Routes.auth_user_id user /\
       task_missing user_id s req) /\
  (Routes.status r = 404 -> Routes.content r = Routes.Detail "Task not found") /\
  (success_status (Routes.status r) \/ Routes.status r = 403
   \/ Routes.status r = 404 \/ Routes.status r = 422) /\
  (~ success_status (Routes.status r) ->
   snd (Routes.serve user_id user req now s) = s).
Proof.
  destruct (body_refused_dec req) as [Href | Hok].
  { rewrite (serve_refused user_id user req now s Href). simpl.
    unfold success_status. intuition (try done; try lia). }
  destruct (decide (user_id = Routes.auth_user_id user)) as [Hu | Hu].
  2: { rewrite (serve_forbidden user_id user req now s Hok Hu). simpl.
       unfold success_status. intuition (try done; try lia). }
  destruct (task_missing_dec user_id req s) as [Hmiss | Hfound].
  { rewrite (serve_missing user_id user req now s Hok Hu Hmiss). simpl.
    unfold success_status. intuition (try done; try lia). }
  pose proof (serve_found user_id user req now s Hok Hu Hfound) as Hs.
  simpl. unfold success_status in *. intuition (try done; try lia).
Qed.

Lemma routes_failure_statuses_witness :
  Routes.content (fst (Routes.serve "bob" bob (Routes.GET_task 1) 20 sample))
  = Routes.content (fst (Routes.serve "bob" bob (Routes.GET_task 2) 20 sample)).
Proof.
  destruct (routes_failure_statuses "bob" bob (Routes.GET_task 1) 20 sample)
    as (_ & _ & _ & H1 & _).
  destruct (routes_failure_statuses "bob" bob (Routes.GET_task 2) 20 sample)
    as (_ & _ & _ & H2 & _).
  rewrite H1, H2; reflexivity.
Defined.

(** ** Integrity of the table *)

Section Integrity.

(** Saving a changed copy of a row read from the table keeps the table
    well formed, as long as the copy has the key of the row. *)
Lemma wf_save_read (s : Db.Store) (k : Z) (t t' : Task) :
  Db.wf s -> Db.get s k = Some t -> id t' = id t -> Db.wf (Db.save t' s).
Proof.
  intros Hwf Hget Hid. apply wf_save; [done|].
  rewrite Hid, (wf_id s k t Hwf Hget). by exists t.
Qed.

(** Every tool leaves a well-formed table well formed. *)
Lemma invoke_wf (user_id : string) (c : Tools.Call) (now : Z) (s : Db.Store) :
  Db.wf s -> Db.wf (snd (Tools.invoke user_id c now s)).
Proof.
  intros Hwf. destruct c as [ti de | ic li | k | k | k ti de]; simpl.
  - unfold Tools.add_task. repeat (case_match; simpl; try done).
    + apply (wf_add_new
               (fun k => new_task k user_id (Str.strip ti)
                           (Str.strip (default "" de)) now) s);
        [reflexivity | done].
    + apply (wf_add_new (fun k => new_task k user_id (Str.strip ti) "" now) s);
        [reflexivity | done].
  - done.
  - unfold Tools.complete_task. repeat (case_match; simpl; try done).
    by eapply wf_save_read.
  - unfold Tools.delete_task. repeat (case_match; simpl; try done).
    by apply wf_remove.
  - unfold Tools.update_task. repeat (case_match; simpl; try done);
      by eapply wf_save_read.
Qed.

(** Every route leaves a well-formed table well formed. *)
Lemma serve_wf (user_id : string) (user : Routes.CurrentUser)
    (req : Routes.Request) (now : Z) (s : Db.Store) :
  Db.wf s -> Db.wf (snd (Routes.serve user_id user req now s)).
Proof.
  intros Hwf.
  destruct (body_refused_dec req) as [Href | Hok];
    [by rewrite serve_refused|].
  destruct (decide (user_id = Routes.auth_user_id user)) as [Hu | Hu];
    [|by rewrite serve_forbidden].
  destruct (task_missing_dec user_id req s) as [Hmiss | Hfound];
    [by rewrite serve_missing|].
  pose proof (verify_user_access_same user_id user s Hu) as Hv.
  unfold task_missing in Hfound.
  destruct req as [|body|k|k body|k|k]; simpl in Hok, Hfound; run_route.
  - by rewrite Hv.
  - destruct (Routes.validate_TaskCreate body) as [td|]; [|done].
    rewrite Hv. simpl.
    apply (wf_add_new
             (fun k => new_task k user_id (Routes.tc_title td)
                         (Routes.tc_description td) now) s);
      [reflexivity | done].
  - rewrite Hv, get_task_or_404_spec.
    destruct (Db.get s k) as [t|]; [|done]. by case_decide.
  - destruct (Routes.validate_TaskUpdate body) as [td|]; [|done].
    rewrite Hv, get_task_or_404_spec.
    destruct (Db.get s k) as [t|] eqn:Hget; [|done].
    case_decide; [simpl|done].
    eapply wf_save_read; [done | done |].
    by destruct (Routes.tu_title td), (Routes.tu_description td).
  - rewrite Hv, get_task_or_404_spec.
    destruct (Db.get s k) as [t|] eqn:Hget; [|done].
    case_decide; [simpl|done]. by apply wf_remove.
  - rewrite Hv, get_task_or_404_spec.
    destruct (Db.get s k) as [t|] eqn:Hget; [|done].
    case_decide; [simpl|done]. by eapply wf_save_read.
Qed.

End Integrity.

(** ** Toggling completion *)

Section Toggle.

Variables (user_id : string) (task_id : Z) (s : Db.Store) (task : Task).
Hypothesis Hget : Db.get s task_id = Some task.
Hypothesis Hown : Models.user_id task = user_id.

(** The task with [completed] flipped and [updated_at] set to [now]. *)
Definition toggled (now : Z) (t : Task) : Task :=
  mkTask (id t) (Models.user_id t) (title t) (description t)
    (negb (completed t)) (created_at t) now.

Lemma toggle_complete_flips (now : Z) :
  Routes.toggle_complete user_id task_id (Routes.mkCurrentUser user_id) now s
  = (Http.Returned (toggled now task), Db.save (toggled now task) s).
Proof using Hget Hown.
  unfold Routes.toggle_complete. run_route.
  rewrite verify_user_access_same by done.
  rewrite get_task_or_404_spec, Hget, decide_True by done.
  reflexivity.
Qed.

End Toggle.

(** C9. [toggle_complete] on a task of the caller stores the task with
    [completed] negated, whatever its value was, and [updated_at] set to
    the time of the call. A second call negates it again: the row then has
    the [completed] the task had at first, and the [updated_at] of the
    second call. [complete_task] on a completed task, in contrast, leaves
    the table. *)
Theorem toggle_complete_twice_restores
    (user_id : string) (task_id now now' : Z) (s : Db.Store) (task : Task) :
  Db.wf s ->
  Db.get s task_id = Some task ->
  Models.user_id task = user_id ->
  let user := Routes.mkCurrentUser user_id in
  let once := Routes.toggle_complete user_id task_id user now s in
  let twice := Routes.toggle_complete user_id task_id user now' (snd once) in
  once = (Http.Returned (toggled now task), Db.save (toggled now task) s) /\
  completed (toggled now task) = negb (completed task) /\
  updated_at (toggled now task) = now /\
  Db.get (snd once) task_id = Some (toggled now task) /\
  fst twice = Http.Returned (toggled now' (toggled now task)) /\
  Db.get (snd twice) task_id
  = Some (mkTask (id task) (Models.user_id task) (title task)
            (description task) (completed task) (created_at task) now') /\
  (completed task = true ->
   snd (Tools.complete_task user_id task_id now s) = s).
Proof.
  intros Hwf Hget Hown user once twice.
  pose proof (wf_id s task_id task Hwf Hget) as Hid.
  assert (once = (Http.Returned (toggled now task),
                  Db.save (toggled now task) s)) as Honce
    by (by apply toggle_complete_flips).
  assert (Db.get (Db.save (toggled now task) s) task_id
          = Some (toggled now task)) as Hrow.
  { rewrite get_save. simpl. by rewrite decide_True. }
  assert (twice = (Http.Returned (toggled now' (toggled now task)),
                   Db.save (toggled now' (toggled now task)) (snd once)))
    as Htwice.
  { subst twice. rewrite Honce. simpl. by apply toggle_complete_flips. }
  split; [done|]. split; [done|]. split; [done|].
  split; [by rewrite Honce|].
  split; [by rewrite Htwice|].
  split.
  - rewrite Htwice. simpl. rewrite get_save. simpl.
    rewrite decide_True by done. unfold toggled. simpl.
    by rewrite negb_involutive.
  - intros Hc. by rewrite (complete_task_already user_id task_id s task).
Qed.

Lemma toggle_complete_twice_restores_witness :
  Db.get
    (snd (Routes.toggle_complete "alice" 1 alice 30
            (snd (Routes.toggle_complete "alice" 1 alice 20 sample)))) 1
  = Some (mkTask 1 "alice" "Buy milk" "" false 10 30).
Proof.
  destruct (toggle_complete_twice_restores "alice" 1 20 30 sample
              (mkTask 1 "alice" "Buy milk" "" false 10 10)
              sample_wf sample_row eq_refl)
    as (_ & _ & _ & _ & _ & H & _).
  exact H.
Defined.

(** ** Listing tasks *)

Section Listing.

(** [List.filter] keeps the elements that pass the test. *)
Lemma elem_of_bool_filter {A} (p : A -> bool) (l : list A) (x : A) :
  x ∈ List.filter p l <-> x ∈ l /\ p x = true.
Proof. rewrite !list_elem_of_In. apply filter_In. Qed.

(** The elements that fail a test and those that pass it are all the
    elements. *)
Lemma count_split {A} (p : A -> bool) (l : list A) :
  (length (List.filter (fun x => negb (p x)) l)
   + length (List.filter p l) = length l)%nat.
Proof.
  induction l as [|x l IH]; simpl; [done|].
  destruct (p x); simpl; lia.
Qed.

(** A statement yields rows of the table that pass its [where] clauses,
    and no more of them than its [limit]. *)
Lemma exec_sound (q : Db.Select) (s : Db.Store) (t : Task) :
  t ∈ Db.exec q s ->
  Db.sel_where q t = true /\ exists k, Db.get s k = Some t.
Proof.
  unfold Db.exec. intros Hin.
  assert (t ∈ List.filter (Db.sel_where q) (Db.scan s)) as Hf.
  { destruct (Db.sel_limit q) as [n|]; [|done].
    destruct (n <? 0)%Z; [done|].
    by apply (subseteq_take (Z.to_nat n)). }
  apply elem_of_bool_filter in Hf as [Hs Hp].
  split; [done|]. by apply elem_of_scan.
Qed.


(** A limit that is not negative keeps the first rows found. *)
Lemma exec_limit_take (q : Db.Select) (n : N) (s : Db.Store) :
  Db.exec (Db.limit (Z.of_N n) q) s
  = take (N.to_nat n) (List.filter (Db.sel_where q) (Db.scan s)).
Proof.
  unfold Db.exec. simpl.
  rewrite (proj2 (Z.ltb_ge (Z.of_N n) 0)) by lia.
  f_equal. lia.
Qed.

(** Without a [limit], a statement yields every row that passes. *)
Lemma exec_complete (p : Task -> bool) (s : Db.Store) (t : Task) (k : Z) :
  Db.get s k = Some t -> p t = true ->
  t ∈ Db.exec (Db.mkSelect p None) s.
Proof.
  intros Hget Hp. unfold Db.exec. simpl.
  apply elem_of_bool_filter. split; [|done].
  apply elem_of_scan. by exists k.
Qed.

(** The rows of a scan that pass a test are as many as the entries of
    the table that pass it. *)
Lemma scan_filter_length (p : Task -> bool) (s : Db.Store) :
  length (List.filter p (Db.scan s))
  = size (filter (fun kv : Z * Task => p kv.2 = true) (Db.rows s)).
Proof.
  unfold Db.scan.
  transitivity
    (length (filter (fun kv : Z * Task => p kv.2 = true)
               (map_to_list (Db.rows s)))).
  { induction (map_to_list (Db.rows s)) as [|[k t] l IH]; [done|].
    rewrite fmap_cons, filter_cons. cbn [snd List.filter].
    case_decide as Hd; simpl in Hd.
    - rewrite Hd. simpl. by rewrite IH.
    - apply not_true_is_false in Hd. by rewrite Hd. }
  rewrite map_filter_alt, <- length_map_to_list.
  apply Permutation_length. symmetry. apply map_to_list_to_map.
  apply (sublist_NoDup _ (map_to_list (Db.rows s)).*1).
  - apply NoDup_fst_map_to_list.
  - apply fmap_sublist, sublist_filter.
Qed.

End Listing.




(** C10. The HTTP list route, called by the user of the URL, takes no
    limit and no completion filter: it answers 200 with exactly the rows
    of the table that belong to the user, completed or not, as many as the
    table holds for that user. The tool [list_tasks] with
    [include_completed = true] and a limit that is not negative returns
    the first [limit] of the same rows, and called without arguments it
    takes [limit = 50]. *)
Theorem http_list_returns_all_tasks
    (user_id : string) (user : Routes.CurrentUser) (limit : N) (now : Z)
    (s : Db.Store) :
  user_id = Routes.auth_user_id user ->
  exists tasks,
    Routes.list_tasks user_id user s = (Http.Returned tasks, s) /\
    Routes.serve user_id user Routes.GET_tasks now s
    = (Routes.mkResponse 200 (Routes.TaskList tasks), s) /\
    (forall t, t ∈ tasks
               <-> exists k, Db.get s k = Some t /\ Models.user_id t = user_id) /\
    length tasks
    = size (filter (fun kv : Z * Task => Models.user_id kv.2 = user_id)
              (Db.rows s)) /\
    (exists pending completed msg,
       Tools.list_tasks user_id true (Z.of_N limit) s
       = (Tools.ListResult
            (Tools.list_entry <$> take (N.to_nat limit) tasks)
            (length (take (N.to_nat limit) tasks)) pending completed msg,
          s)) /\
    Tools.invoke user_id (Tools.call_list_tasks None None) now s
    = Tools.list_tasks user_id true 50 s.
Proof.
  intros Hu.
  exists (Db.exec
            (Db.where_ (fun t => String.eqb (Models.user_id t) user_id)
               Db.select_Task) s).
  split.
  { unfold Routes.list_tasks. run_route.
    by rewrite verify_user_access_same. }
  split.
  { unfold Routes.list_tasks. run_route.
    by rewrite verify_user_access_same. }
  split.
  { intros t. split.
    - intros Ht. apply exec_sound in Ht as [Hw [k Hk]].
      exists k. split; [done|]. simpl in Hw. by apply String.eqb_eq in Hw.
    - intros (k & Hk & Ht).
      apply (exec_complete _ s t k Hk). simpl. by apply String.eqb_eq. }
  split.
  { unfold Db.exec. simpl. rewrite scan_filter_length.
    f_equal. apply map_filter_ext. intros k t _. simpl.
    by rewrite String.eqb_eq. }
  split; [|reflexivity].
  unfold Tools.list_tasks. do 3 eexists.
  rewrite exec_limit_take, length_map. simpl. reflexivity.
Qed.

Lemma http_list_returns_all_tasks_witness :
  exists tasks,
    Routes.serve "alice" alice Routes.GET_tasks 20 sample
    = (Routes.mkResponse 200 (Routes.TaskList tasks), sample) /\
    mkTask 1 "alice" "Buy milk" "" false 10 10 ∈ tasks.
Proof.
  destruct (http_list_returns_all_tasks "alice" alice 50 20 sample eq_refl)
    as (tasks & _ & Hs & Hin & _).
  exists tasks. split; [exact Hs|].
  apply Hin. exists 1. split; reflexivity.
Defined.

(** ** A session from end to end *)

(** Alice adds a task, completes it twice, deletes it and lists her tasks:
    the second completion says so, and the list is empty. *)
Example add_complete_delete_list :
  let s0 := Db.empty in
  let s1 := snd (Tools.invoke "alice" (Tools.call_add_task "Buy milk" None) 10 s0) in
  let r2 := Tools.invoke "alice" (Tools.call_complete_task 1) 20 s1 in
  let r3 := Tools.invoke "alice" (Tools.call_complete_task 1) 30 (snd r2) in
  let r4 := Tools.invoke "alice" (Tools.call_delete_task 1) 40 (snd r3) in
  let r5 := Tools.invoke "alice" (Tools.call_list_tasks None None) 50 (snd r4) in
  Tools.message (fst r2) = Some "Task 'Buy milk' has been marked as completed." /\
  Tools.message (fst r3) = Some "Task 'Buy milk' was already completed." /\
  Db.get (snd r3) 1 = Some (mkTask 1 "alice" "Buy milk" "" true 10 20) /\
  fst r4 = Tools.DeleteResult 1 "Task 'Buy milk' has been deleted." /\
  fst r5 = Tools.ListResult [] 0 0 0 "Found 0 task(s): 0 pending, 0 completed.".
Proof. repeat split; reflexivity. Qed.

(** * Further properties of the tools and the routes *)

(** ** What one operation may write *)

Section Writes.

(** The table [s'] is the table [s] after at most one write on behalf of
    the user [u]: nothing, a new task of [u] within the length bounds, a
    changed copy of a task of [u] that keeps its key, owner and creation
    time and does not outgrow the bounds, or the removal of a task of
    [u]. *)
Definition write_by (u : string) (s s' : Db.Store) : Prop :=
  s' = s \/
  (exists ti de now,
     (Str.len ti <= 200)%nat /\ (Str.len de <= 1000)%nat /\
     s' = snd (Db.add_new (fun k => new_task k u ti de now) s)) \/
  (exists k t t',
     Db.get s k = Some t /\ Models.user_id t = u /\
     id t' = id t /\ Models.user_id t' = Models.user_id t /\
     created_at t' = created_at t /\
     ((Str.len (title t) <= 200)%nat -> (Str.len (title t') <= 200)%nat) /\
     ((Str.len (description t) <= 1000)%nat ->
      (Str.len (description t') <= 1000)%nat) /\
     s' = Db.save t' s) \/
  (exists k t,
     Db.get s k = Some t /\ Models.user_id t = u /\ s' = Db.remove t s).

(** The title and description of every task are within the bounds of the
    data model. *)
Definition bounded (s : Db.Store) : Prop :=
  forall k t, Db.get s k = Some t ->
    (Str.len (title t) <= 200)%nat /\ (Str.len (description t) <= 1000)%nat.

Lemma owner_test (t : Task) (u : string) :
  negb (Models.user_id t =? u)%string = false -> Models.user_id t = u.
Proof. intros H%negb_false_iff. by apply String.eqb_eq. Qed.

Lemma invoke_write (u : string) (c : Tools.Call) (now : Z) (s : Db.Store) :
  write_by u s (snd (Tools.invoke u c now s)).
Proof.
  destruct c as [ti de | ic li | k | k | k ti de]; simpl.
  - unfold Tools.add_task.
    destruct (negb (Str.truthy ti) || negb (Str.truthy (Str.strip ti)));
      [by left|].
    destruct (200 <? Str.len ti)%nat eqn:Hti; [by left|].
    destruct (1000 <? Str.len (default "" de))%nat eqn:Hde; [by left|].
    apply Nat.ltb_ge in Hti, Hde.
    pose proof (len_strip ti). pose proof (len_strip (default "" de)).
    right; left. simpl.
    exists (Str.strip ti),
      (if Str.truthy (default "" de) then Str.strip (default "" de) else ""),
      now.
    split; [lia|]. split; [|done].
    destruct (Str.truthy (default "" de)); [lia | simpl; lia].
  - by left.
  - unfold Tools.complete_task.
    destruct (Db.get s k) as [t|] eqn:Hget; [|by left].
    destruct (negb (Models.user_id t =? u)%string) eqn:Hu; [by left|].
    apply owner_test in Hu.
    destruct (completed t); [by left|].
    right; right; left.
    exists k, t, (set_updated_at now (set_completed true t)). simpl.
    by do 7 (split; [done|]).
  - unfold Tools.delete_task.
    destruct (Db.get s k) as [t|] eqn:Hget; [|by left].
    destruct (negb (Models.user_id t =? u)%string) eqn:Hu; [by left|].
    apply owner_test in Hu.
    right; right; right. by exists k, t.
  - unfold Tools.update_task.
    destruct (bool_decide (ti = None) && bool_decide (de = None)); [by left|].
    destruct (match ti with Some ti0 => (200 <? Str.len ti0)%nat
                          | None => false end) eqn:Hti; [by left|].
    destruct (match de with Some de0 => (1000 <? Str.len de0)%nat
                          | None => false end) eqn:Hde; [by left|].
    destruct (Db.get s k) as [t|] eqn:Hget; [|by left].
    destruct (negb (Models.user_id t =? u)%string) eqn:Hu; [by left|].
    apply owner_test in Hu.
    right; right; left.
    exists k, t,
      (set_updated_at now
         (match de with
          | Some de0 => set_description (Str.strip de0)
          | None => fun x => x
          end
            (match ti with
             | Some ti0 => set_title (Str.strip ti0) t
             | None => t
             end))).
    split; [done|]. split; [done|].
    split; [by destruct ti, de|]. split; [by destruct ti, de|].
    split; [by destruct ti, de|].
    split; [|split; [|by destruct ti, de]].
    + destruct ti as [ti0|]; [|by destruct de].
      apply Nat.ltb_ge in Hti. pose proof (len_strip ti0).
      intros _. destruct de; simpl; lia.
    + destruct de as [de0|]; [|by destruct ti].
      apply Nat.ltb_ge in Hde. pose proof (len_strip de0).
      intros _. destruct ti; simpl; lia.
Qed.

Lemma validate_TaskCreate_bounds (body : Routes.Body) (td : Routes.TaskCreate) :
  Routes.validate_TaskCreate body = Some td ->
  (1 <= Str.len (Routes.tc_title td) <= 200)%nat /\
  (Str.len (Routes.tc_description td) <= 1000)%nat.
Proof.
  unfold Routes.validate_TaskCreate, Routes.field_ok.
  destruct (Routes.body_title body) as [ti|]; [|done].
  case_match eqn:Hok; [|done]. intros [= <-]. simpl.
  rewrite !andb_true_iff, !Nat.leb_le in Hok. lia.
Qed.

Lemma validate_TaskUpdate_bounds (body : Routes.Body) (td : Routes.TaskUpdate) :
  Routes.validate_TaskUpdate body = Some td ->
  (forall ti, Routes.tu_title td = Some ti -> (1 <= Str.len ti <= 200)%nat) /\
  (forall de, Routes.tu_description td = Some de -> (Str.len de <= 1000)%nat).
Proof.
  unfold Routes.validate_TaskUpdate, Routes.field_ok.
  case_match eqn:Hok; [|done]. intros [= <-]. simpl.
  apply andb_true_iff in Hok as [Hti Hde].
  split.
  - intros ti Hb. rewrite Hb in Hti. cbn [from_option] in Hti.
    rewrite andb_true_iff, !Nat.leb_le in Hti. lia.
  - intros de Hb. rewrite Hb in Hde. cbn [from_option] in Hde.
    rewrite andb_true_iff, !Nat.leb_le in Hde. lia.
Qed.

Lemma serve_write (url_user_id : string) (user : Routes.CurrentUser)
    (req : Routes.Request) (now : Z) (s : Db.Store) :
  write_by (Routes.auth_user_id user) s
    (snd (Routes.serve url_user_id user req now s)).
Proof.
  destruct (body_refused_dec req) as [Href | Hok];
    [left; by rewrite serve_refused|].
  destruct (decide (url_user_id = Routes.auth_user_id user)) as [Hu | Hu];
    [|left; by rewrite serve_forbidden].
  destruct (task_missing_dec url_user_id req s) as [Hmiss | Hfound];
    [left; by rewrite serve_missing|].
  pose proof (verify_user_access_same url_user_id user s Hu) as Hv.
  unfold task_missing in Hfound.
  destruct req as [|body|k|k body|k|k]; simpl in Hok, Hfound; run_route.
  - left. by rewrite Hv.
  - rewrite <- validate_TaskCreate_None in Hok.
    destruct (Routes.validate_TaskCreate body) as [td|] eqn:Hval; [|done].
    rewrite Hv. simpl.
    destruct (validate_TaskCreate_bounds body td Hval) as [Hti Hde].
    right; left.
    exists (Routes.tc_title td), (Routes.tc_description td), now.
    split; [lia|]. split; [lia|]. by rewrite Hu.
  - left. rewrite Hv, get_task_or_404_spec.
    destruct (Db.get s k) as [t|]; [|done]. by case_decide.
  - rewrite <- validate_TaskUpdate_None in Hok.
    destruct (Routes.validate_TaskUpdate body) as [td|] eqn:Hval; [|done].
    rewrite Hv, get_task_or_404_spec.
    destruct (Db.get s k) as [t|] eqn:Hget; [|done].
    case_decide as Hown; [simpl|done].
    destruct (validate_TaskUpdate_bounds body td Hval) as [Hti Hde].
    right; right; left.
    exists k, t,
      (set_updated_at now
         (match Routes.tu_description td with
          | Some de => set_description de
          | None => fun x => x
          end
            (match Routes.tu_title td with
             | Some ti => set_title ti t
             | None => t
             end))).
    split; [done|]. split; [congruence|].
    destruct (Routes.tu_title td) as [ti|] eqn:Eti;
      destruct (Routes.tu_description td) as [de|] eqn:Ede; simpl;
      repeat split; try done; intros;
      try (specialize (Hti _ eq_refl)); try (specialize (Hde _ eq_refl));
      lia.
  - rewrite Hv, get_task_or_404_spec.
    destruct (Db.get s k) as [t|] eqn:Hget; [|done].
    case_decide as Hown; [simpl|done].
    right; right; right. exists k, t. split; [done|]. split; [congruence|done].
  - rewrite Hv, get_task_or_404_spec.
    destruct (Db.get s k) as [t|] eqn:Hget; [|done].
    case_decide as Hown; [simpl|done].
    right; right; left.
    exists k, t,
      (set_updated_at now (set_completed (negb (completed t)) t)).
    split; [done|]. split; [congruence|]. by repeat split.
Qed.

(** *** What a write leaves alone *)

Lemma write_keeps_foreign (u : string) (s s' : Db.Store) (k : Z) (t : Task) :
  Db.wf s -> write_by u s s' -> Models.user_id t <> u ->
  Db.get s' k = Some t <-> Db.get s k = Some t.
Proof.
  intros Hwf Hw Hne.
  destruct Hw as [-> | [(ti & de & now & _ & _ & ->)
                 | [(k0 & t0 & t' & Hget & Hown & Hid & Hu & _ & _ & _ & ->)
                   | (k0 & t0 & Hget & Hown & ->)]]].
  - done.
  - unfold Db.get, Db.add_new. simpl. rewrite lookup_insert.
    case_decide as Hk.
    + split.
      * intros [= <-]. by simpl in Hne.
      * intros Hin. destruct (Hwf _ _ Hin). lia.
    + done.
  - rewrite get_save. case_decide as Hk; [|done].
    pose proof (wf_id s k0 t0 Hwf Hget). split.
    + intros [= <-]. congruence.
    + intros Hin. assert (t = t0) by congruence. congruence.
  - rewrite get_remove. case_decide as Hk; [|done].
    pose proof (wf_id s k0 t0 Hwf Hget). split; [done|].
    intros Hin. assert (t = t0) by congruence. congruence.
Qed.

Lemma write_keeps_identity (u : string) (s s' : Db.Store) (k : Z) (t t' : Task) :
  Db.wf s -> write_by u s s' ->
  Db.get s k = Some t -> Db.get s' k = Some t' ->
  id t' = id t /\ Models.user_id t' = Models.user_id t
  /\ created_at t' = created_at t.
Proof.
  intros Hwf Hw Hin Hin'.
  destruct Hw as [-> | [(ti & de & now & _ & _ & ->)
                 | [(k0 & t0 & t1 & Hget & Hown & Hid & Hu & Hc & _ & _ & ->)
                   | (k0 & t0 & Hget & Hown & ->)]]].
  - by assert (t' = t) as -> by congruence.
  - unfold Db.get, Db.add_new in Hin'. simpl in Hin'.
    rewrite lookup_insert in Hin'. case_decide as Hk.
    + destruct (Hwf _ _ Hin). lia.
    + by assert (t' = t) as -> by (unfold Db.get in Hin; congruence).
  - rewrite get_save in Hin'. case_decide as Hk.
    + pose proof (wf_id s k0 t0 Hwf Hget).
      assert (t = t0) by congruence. assert (t' = t1) by congruence.
      by subst.
    + by assert (t' = t) as -> by congruence.
  - rewrite get_remove in Hin'. case_decide as Hk; [done|].
    by assert (t' = t) as -> by congruence.
Qed.

Lemma write_keeps_bounds (u : string) (s s' : Db.Store) :
  write_by u s s' -> bounded s -> bounded s'.
Proof.
  intros Hw Hb k t.
  destruct Hw as [-> | [(ti & de & now & Hti & Hde & ->)
                 | [(k0 & t0 & t1 & Hget & _ & _ & _ & _ & Ht & Hd & ->)
                   | (k0 & t0 & Hget & Hown & ->)]]].
  - apply Hb.
  - unfold Db.get, Db.add_new. simpl. rewrite lookup_insert.
    case_decide; [by intros [= <-] | apply Hb].
  - rewrite get_save. case_decide; [|apply Hb].
    intros [= <-]. destruct (Hb _ _ Hget). split; [by apply Ht | by apply Hd].
  - rewrite get_remove. case_decide; [done | apply Hb].
Qed.

End Writes.

(** ** Isolation of users *)

Lemma bounded_empty : bounded Db.empty.
Proof. intros k t H. unfold Db.get, Db.empty in H. simpl in H. by rewrite lookup_empty in H. Qed.

Lemma sample_bounded : bounded sample.
Proof.
  apply (write_keeps_bounds "alice" Db.empty); [|apply bounded_empty].
  apply (invoke_write "alice" (Tools.call_add_task "Buy milk" None) 10).
Qed.

(** X1. A tool called by one user leaves the tasks of every other user as
    they are: on a well-formed table, a task that is not the caller's is in
    the table after the call exactly when it was there before, under the
    same key and with the same fields; no tool creates, changes or removes
    a task in another user's name. *)
Theorem tools_leave_other_users_tasks
    (user_id : string) (c : Tools.Call) (now : Z) (s : Db.Store)
    (k : Z) (t : Task) :
  Db.wf s ->
  Models.user_id t <> user_id ->
  Db.get (snd (Tools.invoke user_id c now s)) k = Some t
  <-> Db.get s k = Some t.
Proof.
  intros Hwf Hne. apply (write_keeps_foreign user_id); [done | | done].
  apply invoke_write.
Qed.

Lemma tools_leave_other_users_tasks_witness :
  Db.get (snd (Tools.invoke "bob" (Tools.call_delete_task 1) 20 sample)) 1
  = Some (mkTask 1 "alice" "Buy milk" "" false 10 10).
Proof.
  apply (tools_leave_other_users_tasks "bob" (Tools.call_delete_task 1) 20
           sample 1 (mkTask 1 "alice" "Buy milk" "" false 10 10) sample_wf).
  - simpl. discriminate.
  - reflexivity.
Defined.

(** X2. A request leaves the tasks of every user other than the
    authenticated one as they are, whatever the [user_id] of its URL: on a
    well-formed table, a task that is not the authenticated user's is in
    the table after the request exactly when it was there before. *)
Theorem routes_leave_other_users_tasks
    (url_user_id : string) (user : Routes.CurrentUser) (req : Routes.Request)
    (now : Z) (s : Db.Store) (k : Z) (t : Task) :
  Db.wf s ->
  Models.user_id t <> Routes.auth_user_id user ->
  Db.get (snd (Routes.serve url_user_id user req now s)) k = Some t
  <-> Db.get s k = Some t.
Proof.
  intros Hwf Hne.
  apply (write_keeps_foreign (Routes.auth_user_id user)); [done | | done].
  apply serve_write.
Qed.

Lemma routes_leave_other_users_tasks_witness :
  Db.get
    (snd (Routes.serve "alice" bob (Routes.PATCH_complete 1) 20 sample)) 1
  = Some (mkTask 1 "alice" "Buy milk" "" false 10 10).
Proof.
  apply (routes_leave_other_users_tasks "alice" bob (Routes.PATCH_complete 1)
           20 sample 1 (mkTask 1 "alice" "Buy milk" "" false 10 10)
           sample_wf).
  - simpl. discriminate.
  - reflexivity.
Defined.

(** ** Fields no operation changes *)

(** X3. No tool and no route changes the [id], the [user_id] or the
    [created_at] of a task: on a well-formed table, a task that is still in
    the table after a tool call or a request has the three fields it had
    before. *)
Theorem identity_fields_never_change
    (user_id : string) (c : Tools.Call) (user : Routes.CurrentUser)
    (req : Routes.Request) (now : Z) (s : Db.Store) (k : Z) (t t' : Task) :
  Db.wf s ->
  Db.get s k = Some t ->
  Db.get (snd (Tools.invoke user_id c now s)) k = Some t'
  \/ Db.get (snd (Routes.serve user_id user req now s)) k = Some t' ->
  id t' = id t /\ Models.user_id t' = Models.user_id t
  /\ created_at t' = created_at t.
Proof.
  intros Hwf Hin [Hin' | Hin'].
  - eapply (write_keeps_identity user_id);
      [exact Hwf | apply invoke_write | exact Hin | exact Hin'].
  - eapply (write_keeps_identity (Routes.auth_user_id user));
      [exact Hwf | apply serve_write | exact Hin | exact Hin'].
Qed.

Lemma identity_fields_never_change_witness :
  id (mkTask 1 "alice" "Renamed" "" false 10 20) = 1 /\
  Models.user_id (mkTask 1 "alice" "Renamed" "" false 10 20) = "alice" /\
  created_at (mkTask 1 "alice" "Renamed" "" false 10 20) = 10.
Proof.
  apply (identity_fields_never_change "alice"
           (Tools.call_update_task 1 (Some "Renamed") None) alice
           Routes.GET_tasks 20 sample 1
           (mkTask 1 "alice" "Buy milk" "" false 10 10)
           (mkTask 1 "alice" "Renamed" "" false 10 20) sample_wf).
  - reflexivity.
  - left. reflexivity.
Defined.

(** ** Length bounds *)

(** X4. The length bounds of the data model are kept by every tool and
    every route: if every task of the table has a title of at most 200
    characters and a description of at most 1000, so has every task of the
    table after a tool call, and after a request. *)
Theorem length_bounds_are_kept
    (user_id : string) (c : Tools.Call) (user : Routes.CurrentUser)
    (req : Routes.Request) (now : Z) (s : Db.Store) :
  bounded s ->
  bounded (snd (Tools.invoke user_id c now s)) /\
  bounded (snd (Routes.serve user_id user req now s)).
Proof.
  intros Hb. split.
  - apply (write_keeps_bounds user_id s); [apply invoke_write | done].
  - apply (write_keeps_bounds (Routes.auth_user_id user) s);
      [apply serve_write | done].
Qed.

Lemma length_bounds_are_kept_witness :
  bounded
    (snd (Tools.invoke "alice"
            (Tools.call_update_task 1 (Some "Buy oat milk") None) 20 sample)).
Proof.
  apply (length_bounds_are_kept "alice"
           (Tools.call_update_task 1 (Some "Buy oat milk") None) alice
           Routes.GET_tasks 20 sample sample_bounded).
Defined.

(** ** Completion through the tools *)

(** X5. No tool takes a completion back: on a well-formed table, a task
    that is completed and is still in the table after a tool call, by any
    user and with any arguments, is still completed. *)
Theorem tools_never_uncomplete
    (user_id : string) (c : Tools.Call) (now : Z) (s : Db.Store)
    (k : Z) (t t' : Task) :
  Db.wf s ->
  Db.get s k = Some t ->
  completed t = true ->
  Db.get (snd (Tools.invoke user_id c now s)) k = Some t' ->
  completed t' = true.
Proof.
  intros Hwf Hin Hc.
  assert (forall x, Db.get s k = Some x -> completed x = true) as Hsame
    by (intros x Hx; congruence).
  destruct c as [ti de | ic li | k0 | k0 | k0 ti de]; simpl.
  - unfold Tools.add_task. repeat (case_match; simpl; try by apply Hsame).
    all: unfold Db.get; simpl; rewrite lookup_insert; case_decide as Hk;
      [destruct (Hwf _ _ Hin); lia | apply Hsame].
  - apply Hsame.
  - unfold Tools.complete_task.
    repeat (case_match; simpl; try by apply Hsame).
    rewrite get_save. simpl. case_decide; [by intros [= <-] | apply Hsame].
  - unfold Tools.delete_task.
    repeat (case_match; simpl; try by apply Hsame).
    rewrite get_remove. case_decide; [done | apply Hsame].
  - unfold Tools.update_task.
    repeat (case_match; simpl; try by apply Hsame).
    all: rewrite get_save; simpl; case_decide as Hk;
      [|apply Hsame]; intros [= <-]; simpl;
      match goal with H : Db.get _ ?k1 = Some ?x |- _ =>
        pose proof (wf_id _ k1 x Hwf H); apply Hsame; congruence end.
Qed.

Lemma tools_never_uncomplete_witness :
  completed (mkTask 1 "alice" "Buy oat milk" "" true 10 30) = true.
Proof.
  apply (tools_never_uncomplete "alice"
           (Tools.call_update_task 1 (Some "Buy oat milk") None) 30
           (snd (Tools.complete_task "alice" 1 20 sample)) 1
           (mkTask 1 "alice" "Buy milk" "" true 10 20)
           (mkTask 1 "alice" "Buy oat milk" "" true 10 30)).
  - apply (invoke_wf "alice" (Tools.call_complete_task 1) 20 sample sample_wf).
  - reflexivity.
  - reflexivity.
  - reflexivity.
Defined.

(** ** Text as [add_task] stores it *)

Section Stripped.

Lemma lstrip_nonspace (c : ascii) (r : string) :
  Str.isspace c = false -> Str.lstrip (String c r) = String c r.
Proof. intros H. simpl. by rewrite H. Qed.

(** What [lstrip] returns is empty or starts with a character that is not
    white space. *)
Lemma lstrip_head (s : string) :
  Str.lstrip s = ""
  \/ exists c r, Str.lstrip s = String c r /\ Str.isspace c = false.
Proof.
  induction s as [|c s IH]; simpl; [by left|].
  destruct (Str.isspace c) eqn:Hc; [exact IH|].
  right. by exists c, s.
Qed.

(** [rstrip] keeps a first character that is not white space. *)
Lemma rstrip_head (c : ascii) (r : string) :
  Str.isspace c = false -> exists r', Str.rstrip (String c r) = String c r'.
Proof.
  intros Hc. simpl. destruct (Str.rstrip r) as [|c' r'].
  - rewrite Hc. by exists "".
  - by exists (String c' r').
Qed.

Lemma rstrip_idem (s : string) : Str.rstrip (Str.rstrip s) = Str.rstrip s.
Proof.
  induction s as [|c s IH]; [done|]. simpl.
  destruct (Str.rstrip s) as [|c' r'] eqn:Hr.
  - destruct (Str.isspace c) eqn:Hc; [done|]. simpl. by rewrite Hc.
  - change (Str.rstrip (String c (String c' r')))
      with (match Str.rstrip (String c' r') with
            | EmptyString =>
                if Str.isspace c then EmptyString else String c EmptyString
            | r => String c r
            end).
    by rewrite IH.
Qed.

(** Stripping twice is stripping once. *)
Lemma strip_idem (s : string) : Str.strip (Str.strip s) = Str.strip s.
Proof.
  unfold Str.strip.
  destruct (lstrip_head s) as [-> | (c & r & -> & Hc)]; [done|].
  destruct (rstrip_head c r Hc) as [r' Hr'].
  rewrite Hr', (lstrip_nonspace c r' Hc), <- Hr'. apply rstrip_idem.
Qed.

End Stripped.

(** X6. A successful [add_task] stores the new task under a key that was
    free: on a well-formed table the envelope reports the stored task, its
    [id] was not a key of the table before and is the key of the task
    after, the task belongs to the caller and is not completed, and every
    task that was in the table is still there unchanged. *)
Theorem add_task_takes_a_fresh_id
    (user_id title description : string) (now : Z) (s : Db.Store) :
  Db.wf s ->
  Tools.success (fst (Tools.add_task user_id title description now s)) = true ->
  exists row msg,
    fst (Tools.add_task user_id title description now s)
    = Tools.TaskResult (Tools.list_entry row) msg /\
    Db.get s (id row) = None /\
    Db.get (snd (Tools.add_task user_id title description now s)) (id row)
    = Some row /\
    Models.user_id row = user_id /\
    completed row = false /\
    (forall k t, Db.get s k = Some t ->
       Db.get (snd (Tools.add_task user_id title description now s)) k
       = Some t).
Proof.
  intros Hwf Hok.
  assert (Db.get s (Db.next_id s) = None) as Hfree.
  { destruct (Db.get s (Db.next_id s)) as [t|] eqn:Hin; [|done].
    destruct (Hwf _ _ Hin). lia. }
  rewrite (add_task_stores_stripped user_id now s title description Hok).
  exists (added_row user_id now s title description).
  revert Hok. unfold Tools.add_task.
  repeat (case_match; simpl; try done); intros _; eexists.
  all: split; [unfold added_row, Tools.list_entry; simpl; try reflexivity|].
  2: { match goal with H : Str.truthy description = false |- _ =>
         apply truthy_false in H; subst description end. reflexivity. }
  all: split; [exact Hfree|].
  all: split; [unfold Db.get; simpl; by rewrite lookup_insert_eq|].
  all: split; [done|]; split; [done|].
  all: intros k t Hin; unfold Db.get; simpl; rewrite lookup_insert_ne;
    [exact Hin | intros <-; unfold added_row in Hin; simpl in Hin; congruence].
Qed.

Lemma add_task_takes_a_fresh_id_witness :
  exists row msg,
    fst (Tools.add_task "alice" "Call mum" "" 20 sample)
    = Tools.TaskResult (Tools.list_entry row) msg /\
    Db.get sample (id row) = None /\
    Db.get (snd (Tools.add_task "alice" "Call mum" "" 20 sample)) (id row)
    = Some row /\
    Models.user_id row = "alice" /\
    completed row = false /\
    (forall k t, Db.get sample k = Some t ->
       Db.get (snd (Tools.add_task "alice" "Call mum" "" 20 sample)) k
       = Some t).
Proof.
  apply (add_task_takes_a_fresh_id "alice" "Call mum" "" 20 sample sample_wf).
  reflexivity.
Defined.

(** X7. The text a successful [add_task] stores is in trimmed form and
    within the bounds: the stored title is not empty, has at most 200
    characters and is left as it is by [strip]; the stored description has
    at most 1000 characters and is left as it is by [strip]. *)
Theorem add_task_stores_trimmed_text
    (user_id title description : string) (now : Z) (s : Db.Store) :
  Tools.success (fst (Tools.add_task user_id title description now s)) = true ->
  exists row,
    Db.get (snd (Tools.add_task user_id title description now s))
      (Db.next_id s) = Some row /\
    Models.title row <> "" /\
    (Str.len (Models.title row) <= 200)%nat /\
    Str.strip (Models.title row) = Models.title row /\
    (Str.len (Models.description row) <= 1000)%nat /\
    Str.strip (Models.description row) = Models.description row.
Proof.
  intros Hok.
  assert (Tools.success
            (fst (Tools.add_task user_id title description now s)) <> false)
    as Hnot by (by rewrite Hok).
  rewrite add_task_fails_iff in Hnot.
  rewrite (add_task_stores_stripped user_id now s title description Hok).
  exists (added_row user_id now s title description).
  pose proof (len_strip title). pose proof (len_strip description).
  split; [unfold Db.get; simpl; by rewrite lookup_insert_eq|].
  unfold added_row. simpl.
  split; [tauto|]. split; [lia|]. split; [apply strip_idem|].
  split; [lia | apply strip_idem].
Qed.

Lemma add_task_stores_trimmed_text_witness :
  exists row,
    Db.get (snd (Tools.add_task "alice" "  Call mum " " at six " 20 sample)) 2
    = Some row /\
    Models.title row <> "" /\
    (Str.len (Models.title row) <= 200)%nat /\
    Str.strip (Models.title row) = Models.title row /\
    (Str.len (Models.description row) <= 1000)%nat /\
    Str.strip (Models.description row) = Models.description row.
Proof.
  apply (add_task_stores_trimmed_text "alice" "  Call mum " " at six " 20
           sample).
  reflexivity.
Defined.

(** ** Deleting a task *)

(** X8. [delete_task] on a task of the caller removes that task and no
    other: on a well-formed table the envelope names the key and the
    title, the key is free afterwards, every other key holds what it held,
    and a later [complete_task], [delete_task] or [update_task] on the
    key, by any user, fails with the error of an absent task. *)
Theorem delete_task_removes_the_task
    (user_id : string) (task_id : Z) (s : Db.Store) (task : Task) :
  Db.wf s ->
  Db.get s task_id = Some task ->
  Models.user_id task = user_id ->
  let s' := snd (Tools.delete_task user_id task_id s) in
  let absent :=
    Tools.Failure ("Task with ID " +:+ Str.of_int task_id +:+ " not found") in
  fst (Tools.delete_task user_id task_id s)
  = Tools.DeleteResult task_id
      ("Task '" +:+ title task +:+ "' has been deleted.") /\
  Db.get s' task_id = None /\
  (forall k, k <> task_id -> Db.get s' k = Db.get s k) /\
  (forall u now, Tools.complete_task u task_id now s' = (absent, s')) /\
  (forall u, Tools.delete_task u task_id s' = (absent, s')) /\
  (forall u ti de now,
     Tools.success (fst (Tools.update_task u task_id ti de now s')) = false).
Proof.
  intros Hwf Hget Hown s' absent.
  pose proof (wf_id s task_id task Hwf Hget) as Hid.
  assert ((Models.user_id task =? user_id)%string = true) as Heq
    by (rewrite Hown; apply String.eqb_refl).
  assert (Tools.delete_task user_id task_id s
          = (Tools.DeleteResult task_id
               ("Task '" +:+ title task +:+ "' has been deleted."),
             Db.remove task s)) as Hdel.
  { unfold Tools.delete_task. by rewrite Hget, Heq. }
  assert (Db.get s' task_id = None) as Hgone.
  { subst s'. rewrite Hdel. simpl. rewrite get_remove. by rewrite decide_True. }
  split; [by rewrite Hdel|]. split; [done|].
  split.
  { intros k Hk. subst s'. rewrite Hdel. simpl. rewrite get_remove.
    rewrite decide_False by congruence. done. }
  split; [intros u now; by apply complete_task_absent|].
  split; [intros u; by apply delete_task_absent|].
  intros u ti de now. unfold Tools.update_task. rewrite Hgone.
  by repeat case_match.
Qed.

Lemma delete_task_removes_the_task_witness :
  Tools.delete_task "alice" 1 (snd (Tools.delete_task "alice" 1 sample))
  = (Tools.Failure "Task with ID 1 not found",
     snd (Tools.delete_task "alice" 1 sample)).
Proof.
  destruct (delete_task_removes_the_task "alice" 1 sample
              (mkTask 1 "alice" "Buy milk" "" false 10 10)
              sample_wf sample_row eq_refl) as (_ & _ & _ & _ & H & _).
  exact (H "alice").
Defined.

(** X9. The HTTP delete route, on a task of the user of the URL, answers
    204 without content and removes that task and no other: on a
    well-formed table the key is free afterwards, every other key holds
    what it held, and every later request of that user that names the key
    and has a body its schema accepts is answered 404. *)
Theorem http_delete_removes_the_task
    (user_id : string) (task_id now : Z) (s : Db.Store) (task : Task) :
  Db.wf s ->
  Db.get s task_id = Some task ->
  Models.user_id task = user_id ->
  let user := Routes.mkCurrentUser user_id in
  let s' := snd (Routes.serve user_id user (Routes.DELETE_task task_id) now s) in
  fst (Routes.serve user_id user (Routes.DELETE_task task_id) now s)
  = Routes.mkResponse 204 Routes.NoContent /\
  Db.get s' task_id = None /\
  (forall k, k <> task_id -> Db.get s' k = Db.get s k) /\
  (forall req now',
     target req = Some task_id -> ~ body_refused req ->
     Routes.serve user_id user req now' s'
     = (Routes.mkResponse 404 (Routes.Detail "Task not found"), s')).
Proof.
  intros Hwf Hget Hown user s'.
  pose proof (wf_id s task_id task Hwf Hget) as Hid.
  assert (Routes.serve user_id user (Routes.DELETE_task task_id) now s
          = (Routes.mkResponse 204 Routes.NoContent, Db.remove task s))
    as Hdel.
  { run_route. rewrite verify_user_access_same by done.
    rewrite get_task_or_404_spec, Hget, decide_True by done. done. }
  assert (Db.get s' task_id = None) as Hgone.
  { subst s'. rewrite Hdel. simpl. rewrite get_remove. by rewrite decide_True. }
  split; [by rewrite Hdel|]. split; [done|].
  split.
  { intros k Hk. subst s'. rewrite Hdel. simpl. rewrite get_remove.
    rewrite decide_False by congruence. done. }
  intros req now' Htarget Hbody.
  apply serve_missing; [done | done |].
  unfold task_missing. by rewrite Htarget, Hgone.
Qed.

Lemma http_delete_removes_the_task_witness :
  Routes.serve "alice" alice (Routes.GET_task 1) 30
    (snd (Routes.serve "alice" alice (Routes.DELETE_task 1) 20 sample))
  = (Routes.mkResponse 404 (Routes.Detail "Task not found"),
     snd (Routes.serve "alice" alice (Routes.DELETE_task 1) 20 sample)).
Proof.
  destruct (http_delete_removes_the_task "alice" 1 20 sample
              (mkTask 1 "alice" "Buy milk" "" false 10 10)
              sample_wf sample_row eq_refl) as (_ & _ & _ & H).
  apply (H (Routes.GET_task 1) 30); [reflexivity | simpl; tauto].
Defined.

(** ** Creating and reading back *)

Lemma serve_get_task_found (user_id : string) (task_id now : Z)
    (s : Db.Store) (task : Task) :
  Db.get s task_id = Some task -> Models.user_id task = user_id ->
  Routes.serve user_id (Routes.mkCurrentUser user_id)
    (Routes.GET_task task_id) now s
  = (Routes.mkResponse 200 (Routes.TaskResponse task), s).
Proof.
  intros Hget Hown. run_route. rewrite verify_user_access_same by done.
  by rewrite get_task_or_404_spec, Hget, decide_True.
Qed.

(** X10. A task created through the HTTP create route is read back by the
    HTTP get route: when the body is accepted, the response carries the
    stored task, whose title and description are those of the body; a GET
    on its [id] by the same user answers 200 with the same task and leaves
    the table, and a GET on its [id] by any other user under their own URL
    answers 404. *)
Theorem http_create_then_get
    (user_id other title : string) (description : option string)
    (now now' : Z) (s : Db.Store) :
  ~ refused_by_TaskCreate (Routes.mkBody (Some title) description) ->
  other <> user_id ->
  let r :=
    Routes.serve user_id (Routes.mkCurrentUser user_id)
      (Routes.POST_tasks (Routes.mkBody (Some title) description)) now s in
  exists task,
    fst r = Routes.mkResponse 201 (Routes.TaskResponse task) /\
    Models.title task = title /\
    Models.description task = default "" description /\
    Models.user_id task = user_id /\
    Routes.serve user_id (Routes.mkCurrentUser user_id)
      (Routes.GET_task (id task)) now' (snd r)
    = (Routes.mkResponse 200 (Routes.TaskResponse task), snd r) /\
    Routes.serve other (Routes.mkCurrentUser other)
      (Routes.GET_task (id task)) now' (snd r)
    = (Routes.mkResponse 404 (Routes.Detail "Task not found"), snd r).
Proof.
  intros Hok Hother r.
  exists (posted_row user_id now s title (default "" description)).
  subst r.
  rewrite (post_tasks_stores_as_given user_id now s title description Hok).
  cbn [fst snd].
  set (task := posted_row user_id now s title (default "" description)).
  set (s' := Db.mkStore (<[Db.next_id s := task]> (Db.rows s))
               (Db.next_id s + 1)).
  assert (Db.get s' (id task) = Some task) as Hin.
  { unfold Db.get. simpl. apply lookup_insert_eq. }
  do 4 (split; [done|]). split.
  - by apply serve_get_task_found.
  - apply serve_missing; [simpl; tauto | done |].
    unfold task_missing. cbn [target]. rewrite Hin. simpl. congruence.
Qed.

Lemma http_create_then_get_witness :
  exists task,
    fst (Routes.serve "bob" bob
           (Routes.POST_tasks (Routes.mkBody (Some "Call mum") None)) 20
           sample)
    = Routes.mkResponse 201 (Routes.TaskResponse task) /\
    Models.title task = "Call mum" /\
    Models.description task = "" /\
    Models.user_id task = "bob" /\
    Routes.serve "bob" bob (Routes.GET_task (id task)) 30
      (snd (Routes.serve "bob" bob
              (Routes.POST_tasks (Routes.mkBody (Some "Call mum") None)) 20
              sample))
    = (Routes.mkResponse 200 (Routes.TaskResponse task),
       snd (Routes.serve "bob" bob
              (Routes.POST_tasks (Routes.mkBody (Some "Call mum") None)) 20
              sample)) /\
    Routes.serve "alice" alice (Routes.GET_task (id task)) 30
      (snd (Routes.serve "bob" bob
              (Routes.POST_tasks (Routes.mkBody (Some "Call mum") None)) 20
              sample))
    = (Routes.mkResponse 404 (Routes.Detail "Task not found"),
       snd (Routes.serve "bob" bob
              (Routes.POST_tasks (Routes.mkBody (Some "Call mum") None)) 20
              sample)).
Proof.
  apply (http_create_then_get "bob" "alice" "Call mum" None 20 30 sample).
  - unfold refused_by_TaskCreate. simpl. unfold Str.len. simpl. lia.
  - discriminate.
Defined.

(** ** When the tools succeed *)

(** The arguments of [update_task] pass its validation: a field is given,
    a title given has at most 200 characters and a description given at
    most 1000. *)
Definition update_args_ok (title description : option string) : Prop :=
  (title <> None \/ description <> None) /\
  (forall ti, title = Some ti -> (Str.len ti <= 200)%nat) /\
  (forall de, description = Some de -> (Str.len de <= 1000)%nat).

(** X11. [update_task] validates its arguments before it looks the task
    up. It succeeds exactly when the arguments pass the validation and the
    task exists and belongs to the caller; and when the arguments do not
    pass, the envelope is the same for every caller, every task id and
    every table, so it says nothing of what the table holds. *)
Theorem update_task_validates_first
    (user_id : string) (task_id : Z) (title description : option string)
    (now : Z) (s : Db.Store) :
  (Tools.success
     (fst (Tools.update_task user_id task_id title description now s)) = true
   <-> update_args_ok title description /\
       exists t, Db.get s task_id = Some t /\ Models.user_id t = user_id) /\
  (~ update_args_ok title description ->
   forall user_id' task_id' now' s',
     fst (Tools.update_task user_id' task_id' title description now' s')
     = fst (Tools.update_task user_id task_id title description now s)).
Proof.
  unfold update_args_ok, Tools.update_task.
  destruct title as [ti|], description as [de|]; simpl;
    try destruct (Nat.ltb_spec 200 (Str.len ti));
    try destruct (Nat.ltb_spec 1000 (Str.len de)); simpl.
  all: try (split;
            [ split; [done|]; intros ((_ & H1 & H2) & _);
              first [ specialize (H1 _ eq_refl); lia
                    | specialize (H2 _ eq_refl); lia ]
            | done ]).
  all: try (split; [|intros Hbad; exfalso; apply Hbad;
                     split; [auto|]; split; intros x [= <-] || intros x [=];
                     lia]).
  all: try (destruct (Db.get s task_id) as [t|] eqn:Hget; simpl;
            [ destruct (Models.user_id t =? user_id)%string eqn:Hu; simpl;
              [ apply String.eqb_eq in Hu; split; [intros _|done];
                split; [|by exists t];
                split; [auto|]; split; intros x [= <-] || intros x [=]; lia
              | apply String.eqb_neq in Hu; split; [done|];
                intros (_ & t' & [= <-] & Hown); done ]
            | split; [done|]; intros (_ & t' & [=] & _) ]).
  split; [|done]. split; [done|]. intros (([H|H] & _) & _); done.
Qed.

Lemma update_task_validates_first_witness :
  fst (Tools.update_task "bob" 7 None None 30 Db.empty)
  = fst (Tools.update_task "alice" 1 None None 20 sample).
Proof.
  destruct (update_task_validates_first "alice" 1 None None 20 sample)
    as [_ H].
  apply H. unfold update_args_ok. intros ([H0 | H0] & _); done.
Defined.

(** X12. [complete_task] succeeds exactly when the task exists and belongs
    to the caller, and on a well-formed table a success leaves the task
    completed with every other key as it was. *)
Theorem complete_task_succeeds_iff_owned
    (user_id : string) (task_id now : Z) (s : Db.Store) :
  Db.wf s ->
  (Tools.success (fst (Tools.complete_task user_id task_id now s)) = true
   <-> exists t, Db.get s task_id = Some t /\ Models.user_id t = user_id) /\
  (Tools.success (fst (Tools.complete_task user_id task_id now s)) = true ->
   (exists t', Db.get (snd (Tools.complete_task user_id task_id now s)) task_id
               = Some t' /\ completed t' = true) /\
   (forall k, k <> task_id ->
      Db.get (snd (Tools.complete_task user_id task_id now s)) k
      = Db.get s k)).
Proof.
  intros Hwf. unfold Tools.complete_task.
  destruct (Db.get s task_id) as [t|] eqn:Hget; simpl.
  2: { split; [split; [done | by intros (t & [=] & _)] | done]. }
  pose proof (wf_id s task_id t Hwf Hget) as Hid.
  destruct (Models.user_id t =? user_id)%string eqn:Hu; simpl.
  2: { apply String.eqb_neq in Hu.
       split; [split; [done | by intros (t' & [= <-] & Hown)] | done]. }
  apply String.eqb_eq in Hu.
  destruct (completed t) eqn:Hc; simpl.
  - split; [split; [intros _; by exists t | done]|].
    intros _. split; [by exists t | done].
  - split; [split; [intros _; by exists t | done]|].
    intros _. split.
    + eexists. rewrite get_save. simpl. rewrite decide_True by done.
      split; [reflexivity | done].
    + intros k Hk. rewrite get_save. simpl.
      by rewrite decide_False by congruence.
Qed.

Lemma complete_task_succeeds_iff_owned_witness :
  exists t',
    Db.get (snd (Tools.complete_task "alice" 1 20 sample)) 1 = Some t'
    /\ completed t' = true.
Proof.
  destruct (complete_task_succeeds_iff_owned "alice" 1 20 sample sample_wf)
    as [_ H].
  apply H. reflexivity.
Defined.

(** ** Listing within the limit *)

Lemma scan_length (s : Db.Store) : length (Db.scan s) = size (Db.rows s).
Proof. unfold Db.scan. by rewrite length_fmap, length_map_to_list. Qed.

Lemma exec_within_limit (q : Db.Select) (n : N) (s : Db.Store) :
  (size (Db.rows s) <= N.to_nat n)%nat ->
  Db.exec (Db.limit (Z.of_N n) q) s
  = List.filter (Db.sel_where q) (Db.scan s).
Proof.
  intros Hn. rewrite exec_limit_take. apply take_ge.
  pose proof (count_split (Db.sel_where q) (Db.scan s)) as Hsplit.
  rewrite scan_length in Hsplit. lia.
Qed.

(** X13. [list_tasks] drops no task when the limit is not smaller than the
    table: every task of the caller, or every task of the caller that is
    not completed when [include_completed] is false, is among the tasks
    returned. *)
Theorem list_tasks_returns_all_within_limit
    (user_id : string) (include_completed : bool) (limit : N)
    (s : Db.Store) (k : Z) (t : Task) :
  (size (Db.rows s) <= N.to_nat limit)%nat ->
  Db.get s k = Some t ->
  Models.user_id t = user_id ->
  include_completed = true \/ completed t = false ->
  exists tasks total pending finished msg,
    fst (Tools.list_tasks user_id include_completed (Z.of_N limit) s)
    = Tools.ListResult tasks total pending finished msg /\
    Tools.list_entry t ∈ tasks.
Proof.
  intros Hn Hget Hown Hshow. unfold Tools.list_tasks.
  do 5 eexists. split; [reflexivity|].
  apply list_elem_of_fmap. exists t. split; [done|].
  assert (t ∈ Db.scan s) as Hscan by (apply elem_of_scan; by exists k).
  assert ((Models.user_id t =? user_id)%string = true) as Hu
    by (by apply String.eqb_eq).
  destruct include_completed; rewrite exec_within_limit by done;
    apply elem_of_bool_filter; (split; [done|]); simpl; rewrite Hu; [done|].
  destruct Hshow as [? | ->]; done.
Qed.

Lemma list_tasks_returns_all_within_limit_witness :
  exists tasks total pending finished msg,
    fst (Tools.list_tasks "alice" false 50 sample)
    = Tools.ListResult tasks total pending finished msg /\
    Tools.list_entry (mkTask 1 "alice" "Buy milk" "" false 10 10) ∈ tasks.
Proof.
  apply (list_tasks_returns_all_within_limit "alice" false 50 sample 1
           (mkTask 1 "alice" "Buy milk" "" false 10 10)).
  - vm_compute. lia.
  - reflexivity.
  - reflexivity.
  - right. reflexivity.
Defined.

(** ** The allowed origins ([backend/main.py]) *)

Module Main.

(** [needle in hay], for strings. *)
Fixpoint contains (needle hay : string) : bool :=
  String.prefix needle hay
  || match hay with
     | EmptyString => false
     | String _ hay' => contains needle hay'
     end.

(** [os.getenv("FRONTEND_URL", "http://localhost:3000")], from the value
    of the variable when it is set. *)
Definition frontend_url (env : option string) : string :=
  default "http://localhost:3000" env.

(** The test that adds the development origins. *)
Definition is_local (url : string) : bool :=
  contains "localhost" url || contains "127.0.0.1" url.

(** The origins added in development. *)
Definition local_origins : list string :=
  [ "http://localhost:3000"; "http://127.0.0.1:3000";
    "http://localhost:3001"; "http://localhost:3002";
    "http://localhost:3003"; "http://localhost:3004";
    "http://127.0.0.1:3001"; "http://127.0.0.1:3002";
    "http://127.0.0.1:3003"; "http://127.0.0.1:3004" ].

(** The list handed to the CORS middleware as [allow_origins]. *)
Definition allowed_origins (env : option string) : list string :=
  let frontend_url := frontend_url env in
  let allowed_origins := [frontend_url] in
  if is_local frontend_url
  then allowed_origins ++ local_origins
  else allowed_origins.

End Main.

Lemma local_origins_are_local (o : string) :
  o ∈ Main.local_origins -> Main.is_local o = true.
Proof.
  unfold Main.local_origins. rewrite !elem_of_cons, elem_of_nil.
  intros H. repeat (destruct H as [-> | H]; [reflexivity|]). done.
Qed.

(** X14. The frontend URL is always an allowed origin, and a development
    origin is allowed exactly when the frontend URL mentions [localhost]
    or [127.0.0.1]: with a frontend URL that mentions neither, the
    frontend URL is the only origin allowed; with [FRONTEND_URL] unset all
    ten development origins are allowed. *)
Theorem development_origins_only_for_local_frontend
    (env : option string) (o : string) :
  Main.frontend_url env ∈ Main.allowed_origins env /\
  (o ∈ Main.allowed_origins env ->
   o = Main.frontend_url env
   \/ (o ∈ Main.local_origins /\ Main.is_local (Main.frontend_url env) = true)) /\
  (o ∈ Main.local_origins ->
   (o ∈ Main.allowed_origins env
    <-> Main.is_local (Main.frontend_url env) = true)) /\
  (o ∈ Main.local_origins -> o ∈ Main.allowed_origins None).
Proof.
  unfold Main.allowed_origins.
  destruct (Main.is_local (Main.frontend_url env)) eqn:Hlocal.
  - split; [apply elem_of_cons; by left|].
    split.
    { rewrite elem_of_app, list_elem_of_singleton. intros [-> | Ho]; auto. }
    split.
    { intros Ho. split; [done|]. intros _. apply elem_of_app. by right. }
    intros Ho. simpl. apply elem_of_cons. by right.
  - split; [apply list_elem_of_singleton; done|].
    split; [rewrite list_elem_of_singleton; auto|].
    split.
    { intros Ho. rewrite list_elem_of_singleton. split; [|done].
      intros ->. apply local_origins_are_local in Ho. congruence. }
    intros Ho. simpl. apply elem_of_cons. by right.
Qed.

Lemma development_origins_only_for_local_frontend_witness :
  "http://localhost:3001" ∈ Main.allowed_origins (Some "https://todo.example.com")
  <-> Main.is_local (Main.frontend_url (Some "https://todo.example.com")) = true.
Proof.
  destruct (development_origins_only_for_local_frontend
              (Some "https://todo.example.com") "http://localhost:3001")
    as (_ & _ & H & _).
  apply H. unfold Main.local_origins. rewrite !elem_of_cons. tauto.
Defined.

(** ** The catalog of tools ([get_all_tools]) *)

Module Catalog.

(** One entry of [properties]: the name of a parameter, its JSON type and
    its description. *)
Record Property := mkProperty {
  p_name : string;
  p_type : string;
  p_description : string;
}.

(** One tool specification: [{"type": "function", "function": {...}}] with
    [parameters] of type [object]. *)
Record ToolSpec := mkToolSpec {
  name : string;
  description : string;
  properties : list Property;
  required : list string;
}.

Definition get_all_tools : list ToolSpec :=
  [ mkToolSpec "add_task"
      "Add a new task to the user's todo list. Use this when the user wants to create, add, or make a new task."
      [ mkProperty "title" "string" "The title or name of the task to add";
        mkProperty "description" "string"
          "Optional detailed description of the task" ]
      ["title"];
    mkToolSpec "list_tasks"
      "List all tasks for the user. Use this when the user wants to see, view, show, or check their tasks or todo list."
      [ mkProperty "include_completed" "boolean"
          "Whether to include completed tasks. Default is true.";
        mkProperty "limit" "integer"
          "Maximum number of tasks to return. Default is 50." ]
      [];
    mkToolSpec "complete_task"
      "Mark a task as completed. Use this when the user wants to complete, finish, check off, or mark a task as done."
      [ mkProperty "task_id" "integer"
          "The ID of the task to mark as completed" ]
      ["task_id"];
    mkToolSpec "delete_task"
      "Delete a task from the todo list. Use this when the user wants to remove, delete, or get rid of a task."
      [ mkProperty "task_id" "integer" "The ID of the task to delete" ]
      ["task_id"];
    mkToolSpec "update_task"
      "Update a task's title or description. Use this when the user wants to edit, modify, change, or rename a task."
      [ mkProperty "task_id" "integer" "The ID of the task to update";
        mkProperty "title" "string" "The new title for the task";
        mkProperty "description" "string"
          "The new description for the task" ]
      ["task_id"] ].

(** The name of the tool function a call applies. *)
Definition call_name (c : Tools.Call) : string :=
  match c with
  | Tools.call_add_task _ _ => "add_task"
  | Tools.call_list_tasks _ _ => "list_tasks"
  | Tools.call_complete_task _ => "complete_task"
  | Tools.call_delete_task _ => "delete_task"
  | Tools.call_update_task _ _ _ => "update_task"
  end.

(** The keyword arguments a call passes, each with the JSON type of its
    value. *)
Definition call_arguments (c : Tools.Call) : list (string * string) :=
  let given {A} (n ty : string) (o : option A) :=
    match o with Some _ => [(n, ty)] | None => [] end in
  match c with
  | Tools.call_add_task _ description =>
      ("title", "string") :: given "description" "string" description
  | Tools.call_list_tasks include_completed limit =>
      given "include_completed" "boolean" include_completed
      ++ given "limit" "integer" limit
  | Tools.call_complete_task _ => [("task_id", "integer")]
  | Tools.call_delete_task _ => [("task_id", "integer")]
  | Tools.call_update_task _ title description =>
      ("task_id", "integer") :: given "title" "string" title
      ++ given "description" "string" description
  end.

End Catalog.

(** Membership in a list that is written out. *)
Ltac in_list :=
  repeat first [apply list_elem_of_here | apply list_elem_of_further].
Ltac not_in_list :=
  let H := fresh in
  intros H;
  repeat (apply elem_of_cons in H as [H|H]; [discriminate H|]);
  by apply elem_of_nil in H.

(** X15. The catalog agrees with the tool functions. Its five
    specifications have five different names; every parameter a
    specification requires is one it declares; no specification declares a
    parameter [user_id]; and every call of a tool function has a
    specification of its name, which declares every argument the call
    passes, with its type, and requires none the call leaves out. *)
Theorem catalog_agrees_with_tools (c : Tools.Call) :
  NoDup (Catalog.name <$> Catalog.get_all_tools) /\
  Forall (fun spec =>
            Forall (fun r => r ∈ Catalog.p_name <$> Catalog.properties spec)
              (Catalog.required spec) /\
            "user_id" ∉ Catalog.p_name <$> Catalog.properties spec)
    Catalog.get_all_tools /\
  exists spec,
    spec ∈ Catalog.get_all_tools /\
    Catalog.name spec = Catalog.call_name c /\
    Forall (fun a => exists d, Catalog.mkProperty a.1 a.2 d
                               ∈ Catalog.properties spec)
      (Catalog.call_arguments c) /\
    Forall (fun r => r ∈ (Catalog.call_arguments c).*1)
      (Catalog.required spec).
Proof.
  split.
  { simpl. repeat (apply NoDup_cons; split; [not_in_list|]).
    apply NoDup_nil_2. }
  split.
  { unfold Catalog.get_all_tools.
    repeat (apply Forall_cons; split;
            [split; [simpl; repeat (apply Forall_cons; split; [in_list|]);
                     apply Forall_nil_2
                    | simpl; not_in_list]|]).
    apply Forall_nil_2. }
  destruct c as [ti [de|] | [ic|] [li|] | k | k | k [ti|] [de|]];
    match goal with
    | |- context [Catalog.call_name ?c0] =>
        match eval vm_compute in
              (List.find (fun sp => String.eqb (Catalog.name sp)
                                      (Catalog.call_name c0))
                 Catalog.get_all_tools) with
        | Some ?sp => exists sp
        end
    end;
    (split; [unfold Catalog.get_all_tools; in_list|]);
    (split; [reflexivity|]); simpl;
    (split; [repeat (apply Forall_cons; split; [eexists; simpl; in_list|]);
             apply Forall_nil_2
            | repeat (apply Forall_cons; split; [in_list|]);
              apply Forall_nil_2]).
Qed.

(** ** The two paths side by side *)

(** X16. On a task of the caller the tools and the routes write the same
    table: deleting through either path, completing a task that is not
    completed through [complete_task] or through the toggle route, and,
    for text that is already trimmed and within the bounds, creating and
    retitling through either path leave the same table. *)
Theorem tools_and_routes_write_alike
    (user_id : string) (task_id now : Z) (s : Db.Store) (task : Task)
    (ti de : string) :
  Db.get s task_id = Some task ->
  Models.user_id task = user_id ->
  let user := Routes.mkCurrentUser user_id in
  snd (Tools.delete_task user_id task_id s)
  = snd (Routes.serve user_id user (Routes.DELETE_task task_id) now s) /\
  (completed task = false ->
   snd (Tools.complete_task user_id task_id now s)
   = snd (Routes.serve user_id user (Routes.PATCH_complete task_id) now s)) /\
  (Str.strip ti = ti -> (1 <= Str.len ti <= 200)%nat ->
   snd (Tools.update_task user_id task_id (Some ti) None now s)
   = snd (Routes.serve user_id user
            (Routes.PUT_task task_id (Routes.mkBody (Some ti) None)) now s)) /\
  (Str.strip ti = ti -> (1 <= Str.len ti <= 200)%nat ->
   Str.strip de = de -> (Str.len de <= 1000)%nat ->
   snd (Tools.add_task user_id ti de now s)
   = snd (Routes.serve user_id user
            (Routes.POST_tasks (Routes.mkBody (Some ti) (Some de))) now s)).
Proof.
  intros Hget Hown user. subst user.
  assert ((Models.user_id task =? user_id)%string = true) as Heq
    by (rewrite Hown; apply String.eqb_refl).
  split.
  { unfold Tools.delete_task. rewrite Hget, Heq. simpl.
    run_route. rewrite verify_user_access_same by done.
    by rewrite get_task_or_404_spec, Hget, decide_True. }
  split.
  { intros Hc.
    rewrite (complete_task_pending user_id task_id s task Hget Hown now Hc).
    unfold Routes.serve, Routes.respond.
    rewrite (toggle_complete_flips user_id task_id s task Hget Hown now).
    simpl. unfold marked, toggled. by rewrite Hc. }
  split.
  { intros Hti Hlen.
    rewrite (update_task_title_only user_id task_id now s task Hget Hown ti)
      by lia.
    rewrite (put_title_only user_id task_id now s task Hget Hown ti) by lia.
    simpl. by rewrite Hti. }
  intros Hti Hlen Hde Hdlen.
  assert (Tools.success (fst (Tools.add_task user_id ti de now s)) = true)
    as Hok.
  { apply not_false_iff_true. rewrite add_task_fails_iff, Hti.
    intros [-> | [? | ?]]; [|lia|lia].
    unfold Str.len in Hlen. simpl in Hlen. lia. }
  rewrite (add_task_stores_stripped user_id now s ti de Hok).
  rewrite (post_tasks_stores_as_given user_id now s ti (Some de)).
  - simpl. unfold added_row, posted_row. by rewrite Hti, Hde.
  - unfold refused_by_TaskCreate. simpl. lia.
Qed.

Lemma tools_and_routes_write_alike_witness :
  snd (Tools.complete_task "alice" 1 20 sample)
  = snd (Routes.serve "alice" alice (Routes.PATCH_complete 1) 20 sample).
Proof.
  destruct (tools_and_routes_write_alike "alice" 1 20 sample
              (mkTask 1 "alice" "Buy milk" "" false 10 10) "x" ""
              sample_row eq_refl) as (_ & H & _).
  apply H. reflexivity.
Defined.
